(** * systole.interact: the annotation state of the peaks [Editor]

    A shallow embedding of [systole/interact/interact.py]: the handlers
    [Editor.on_remove], [Editor.on_add], [Editor.save], the constructor
    [Editor.__init__] and the JSON part of [Viewer.load_signal].

    Conventions.
    - Python exceptions are values of [exn]; a method that can raise returns
      a [result].
    - Sample indices ([tmin], [tmax], positions in [peaks]) are [nat]: they
      come out of [np.searchsorted] and are never negative. The integers
      stored in [bad_segments] and in the JSON document are [Z].
    - Samples and axis coordinates are finite floats; only their order is
      used, so they are embedded in [Q].
    - Drawing assigns neither [peaks] nor [bad_segments]. The calls into
      matplotlib are taken to return normally, except
      [self.fig.set_tight_layout()] in [plot_signals], which lacks its
      required argument and raises [TypeError]. [plot_raw], of
      [systole.plots], is a parameter of the handlers, whose [plot_signals]
      calls it; the first plot of the constructor is left out.
    - A handler is a callback of its span selector: an exception ends that
      call, and the next call runs on the editor as the previous one left
      it. *)

From Stdlib Require Import ZArith QArith Lia Ascii String.
From stdpp Require Import gmap strings list sorting.

Local Open Scope Z_scope.

(** ** Exceptions *)

Inductive exn : Type :=
| ValueError
| KeyError
| IndexError
| TypeError
| AttributeError.

Inductive result (A : Type) : Type :=
| Ok (a : A)
| Raise (e : exn).

Arguments Ok {A} a.
Arguments Raise {A} e.

#[global] Instance result_ret : MRet result := @Ok.

#[global] Instance result_bind : MBind result :=
  fun A B (k : A -> result B) (r : result A) =>
    match r with
    | Ok a => k a
    | Raise e => Raise e
    end.

(** ** The numpy operations the editor uses *)

Module Np.

Definition Qltb (x y : Q) : bool := negb (Qle_bool y x).

(** [np.searchsorted(a, v)] on an ascending array: the insertion index on the
    left, that is the number of leading entries strictly below [v]. *)
Fixpoint searchsorted (a : list Q) (v : Q) : nat :=
  match a with
  | [] => O
  | y :: t => if Qltb y v then S (searchsorted t v) else O
  end.

(** [a[lo:hi]] for non-negative bounds. *)
Definition slice {A : Type} (lo hi : nat) (a : list A) : list A :=
  drop lo (take hi a).

(** Scan of [np.argmax]: [best] is the largest value seen so far, [bi] its
    index, [i] the index of the head of [l]. Ties keep the first index. *)
Fixpoint argmax_from (best : Q) (bi i : nat) (l : list Q) : nat :=
  match l with
  | [] => bi
  | x :: t =>
      if Qltb best x then argmax_from x i (S i) t
      else argmax_from best bi (S i) t
  end.

(** [np.argmax(a)]: raises [ValueError] on an empty array. *)
Definition argmax (a : list Q) : result nat :=
  match a with
  | [] => Raise ValueError
  | x :: t => Ok (argmax_from x 0 1 t)
  end.

(** [a[i] = v] on an array: an index past the end raises [IndexError]. *)
Definition setitem {A : Type} (i : nat) (v : A) (a : list A) : result (list A) :=
  if (i <? length a)%nat then Ok (<[i:=v]> a) else Raise IndexError.

(** [a[lo:hi] = v]: the scalar is broadcast over the slice, which is clipped
    to the array and empty when [hi <= lo]. *)
Definition setslice {A : Type} (lo hi : nat) (v : A) (a : list A) : list A :=
  imap (fun i x => if ((lo <=? i) && (i <? hi))%nat then v else x) a.

(** [np.where(a)[0].tolist()] with [i] the index of the head of [a]. *)
Fixpoint where_from (i : nat) (a : list bool) : list Z :=
  match a with
  | [] => []
  | b :: t => if b then Z.of_nat i :: where_from (S i) t else where_from (S i) t
  end.

Definition where_ (a : list bool) : list Z := where_from 0 a.

(** [np.zeros(n, dtype=bool)] *)
Definition zeros (n : nat) : list bool := replicate n false.

(** [np.array(idx)], [idx] a Python list of ints, as the index array numpy
    reads it as. The empty list gives a float64 array, which is refused as
    an index with [IndexError], as is every array that is not of integer
    type. Ints that all fit int64 give an int64 array. Otherwise ints that
    are all non-negative and fit uint64 give a uint64 array, whose entries
    from 2^63 on wrap around when they are read as indices. Any other list
    gives a float64 or an object array. *)
Definition index_array (idx : list Z) : result (list Z) :=
  match idx with
  | [] => Raise IndexError
  | _ :: _ =>
      if forallb (fun i => (- 2 ^ 63 <=? i) && (i <? 2 ^ 63)) idx
      then Ok idx
      else if forallb (fun i => (0 <=? i) && (i <? 2 ^ 64)) idx
      then Ok (map (fun i => if i <? 2 ^ 63 then i else i - 2 ^ 64) idx)
      else Raise IndexError
  end.

(** One entry of an index array, as [index_array] gives it, against an axis
    of length [n]: entries of [-n .. -1] count from the end, anything
    outside [-n .. n-1] raises [IndexError]. *)
Definition axis_index (n : nat) (i : Z) : result nat :=
  if (0 <=? i) && (i <? Z.of_nat n) then Ok (Z.to_nat i)
  else if (- Z.of_nat n <=? i) && (i <? 0) then Ok (Z.to_nat (i + Z.of_nat n))
  else Raise IndexError.

Fixpoint set_each (idx : list Z) (v : bool) (a : list bool) : result (list bool) :=
  match idx with
  | [] => Ok a
  | i :: t =>
      k ← axis_index (length a) i;
      set_each t v (<[k:=v]> a)
  end.

(** [a[np.array(idx)] = v] with [idx] a Python list of ints. *)
Definition setitem_array (idx : list Z) (v : bool) (a : list bool)
  : result (list bool) :=
  ix ← index_array idx;
  set_each ix v a.

End Np.

(** ** systole.utils.norm_bad_segments *)

Module Utils.

(** The tuples [(start, end)] the handlers build from the flat list. *)
Definition interval : Type := Z * Z.

(** Modelled from the spec: an interval is a half-open pair (start, end) with
    start < end; a pair with start >= end holds no sample (section 3, and
    the zero-width edge case of section 4.1). *)
Definition nonempty (p : interval) : bool := fst p <? snd p.

(** Modelled from the spec: the sort by start of the normalization of
    [norm_bad_segments], written as a stable insertion (section 4.1, result
    sorted by start). *)
Fixpoint insert_by_start (p : interval) (l : list interval) : list interval :=
  match l with
  | [] => [p]
  | q :: t => if fst p <=? fst q then p :: q :: t else q :: insert_by_start p t
  end.

(** Modelled from the spec: the intervals of [norm_bad_segments] in ascending
    order of start (section 4.1). *)
Definition sort_by_start (l : list interval) : list interval :=
  foldr insert_by_start [] l.

(** Modelled from the spec: the merge pass of [norm_bad_segments] over the
    sorted intervals: [cur] is the interval being grown; the next interval is
    absorbed when it overlaps or touches it (start_j <= end_i), the result
    spanning both, and otherwise starts a new interval (section 4.1). *)
Fixpoint merge_from (cur : interval) (l : list interval) : list interval :=
  match l with
  | [] => [cur]
  | h :: t =>
      if fst h <=? snd cur
      then merge_from (fst cur, Z.max (snd cur) (snd h)) t
      else cur :: merge_from h t
  end.

(** Modelled from the spec: the normalization of [norm_bad_segments]: empty
    intervals are dropped, the rest is sorted by start and merged
    (section 4.1 and the last design note of section 9). *)
Definition normalize (l : list interval) : list interval :=
  match sort_by_start (filter (fun p => nonempty p = true) l) with
  | [] => []
  | h :: t => merge_from h t
  end.

(** Modelled from the spec: what the good interval [g] leaves of the bad
    interval [b] in [norm_bad_segments]: untouched when they do not overlap,
    deleted when [g] covers it, split in a left and a right remainder when it
    straddles [g], truncated at the boundary of [g] otherwise (section 4.1,
    remove_bad). *)
Definition carve_one (g b : interval) : list interval :=
  let '(gs, ge) := g in
  let '(s, e) := b in
  if (e <=? gs) || (ge <=? s) then [b]
  else if (gs <=? s) && (e <=? ge) then []
  else if (s <? gs) && (ge <? e) then [(s, gs); (ge, e)]
  else if s <? gs then [(s, gs)]
  else [(ge, e)].

(** Modelled from the spec: the good interval carved out of every interval of
    the set in [norm_bad_segments] (section 4.1, remove_bad). *)
Definition carve (g : interval) (l : list interval) : list interval :=
  l ≫= carve_one g.

(** Modelled from the spec: [systole.utils.norm_bad_segments(bads,
    good_segments=None)], imported by [interact.py] and defined outside it.
    Without good segments it is add_bad's normalization; with good segments
    each one is carved out and the normalization is run again
    (section 4.1). *)
Definition norm_bad_segments (bads : list interval)
    (good_segments : option (list interval)) : list interval :=
  match good_segments with
  | None => normalize bads
  | Some gs => normalize (foldl (fun acc g => carve g acc) bads gs)
  end.

End Utils.

(** ** The persisted JSON document *)

Module Json.

(** One block of the corrected JSON file:
    [{"valid": ..., "corrected_peaks": [...], "bad_segments": [...] | null}]. *)
Record block : Type := Block {
  valid : bool;
  corrected_peaks : list Z;
  bad_segments : option (list Z);
}.

(** The document: a JSON object from signal-type keys to blocks. *)
Abbreviation document := (gmap string block).

End Json.

(** [str.lower()] on ASCII text. *)
Definition lower_ascii (c : ascii) : ascii :=
  let n := nat_of_ascii c in
  if ((65 <=? n) && (n <=? 90))%nat then ascii_of_nat (n + 32) else c.

Fixpoint lower (s : string) : string :=
  match s with
  | EmptyString => EmptyString
  | String c t => String (lower_ascii c) (lower t)
  end.

(** Reading an attribute or subscripting a value that may be [None]. *)
Definition unwrap {A : Type} (e : exn) (o : option A) : result A :=
  match o with
  | Some a => Ok a
  | None => Raise e
  end.

(** [[(l[i], l[i + 1]) for i in range(0, len(l), 2)]]: a flat list of odd
    length runs past its end at the last [l[i + 1]]. *)
Fixpoint pair_up (l : list Z) : result (list Utils.interval) :=
  match l with
  | [] => Ok []
  | [_] => Raise IndexError
  | s :: e :: t => ps ← pair_up t; Ok ((s, e) :: ps)
  end.

(** [list(np.array(pairs).flatten())] *)
Fixpoint flatten (l : list Utils.interval) : list Z :=
  match l with
  | [] => []
  | (s, e) :: t => s :: e :: flatten t
  end.

(** ** Viewer: reading the corrected JSON file *)

Module Viewer.

Record t : Type := Mk {
  signal_type_ : string;
  input_signal : option (list Q);
  corrected_peaks : option (list bool);
  bad_segments : option (list Z);
}.

Definition set_bad_segments (b : option (list Z)) (self : t) : t :=
  Mk (signal_type_ self) (input_signal self) (corrected_peaks self) b.

Definition set_corrected_peaks (p : option (list bool)) (self : t) : t :=
  Mk (signal_type_ self) (input_signal self) p (bad_segments self).

Definition set_input_signal (s : option (list Q)) (self : t) : t :=
  Mk (signal_type_ self) s (corrected_peaks self) (bad_segments self).

(** [Viewer.load_signal] from the resampling on, with
    [self.corrected_peaks] and [self.bad_segments] reset to [None] as at its
    start. [signal] holds the samples of [self.input_signal] once resampled
    at the sampling frequency [load_file] has read; [file] is the content
    of [self.corrected_json], [None] when the file does not exist.
    A recording without samples does not get past the resampling:
    [np.interp] raises [TypeError] on its column. On the samples that are
    left, which are finite, [np.isnan(self.input_signal).all()] is false, so
    the branch that sets everything to [None] is not taken. *)
Definition load_signal (self : t) (signal : list Q)
    (file : option Json.document) : result t :=
  let self := set_corrected_peaks None (set_bad_segments None self) in
  match signal with
  | [] => Raise TypeError
  | _ :: _ =>
      let self := set_input_signal (Some signal) self in
      match file with
      | Some json_data =>
          blk ← unwrap KeyError (json_data !! lower (signal_type_ self));
          let self := set_bad_segments (Json.bad_segments blk) self in
          blk ← unwrap KeyError (json_data !! lower (signal_type_ self));
          peaks ← Np.setitem_array (Json.corrected_peaks blk) true
                    (Np.zeros (length signal));
          Ok (set_corrected_peaks (Some peaks) self)
      | None => Ok self
      end
  end.

End Viewer.

(** ** Editor *)

Module Editor.

(** The value of the [edition_] toggle. *)
Inductive edition : Type :=
| Correction
| Rejection.

(** The attributes of an [Editor] that carry the annotation. An attribute
    that holds [None] is [None] here; [x_vec] is [None] as long as it has not
    been assigned. *)
Record t : Type := Mk {
  sfreq : nat;
  signal : option (list Q);
  signal_type : string;
  bad_segments : option (list Z);
  peaks : option (list bool);
  uncorrected_peaks : option (list bool);
  x_vec : option (list Q);
  edition_ : edition;
  rejection_ : bool;
}.

Definition set_signal (s : option (list Q)) (self : t) : t :=
  Mk (sfreq self) s (signal_type self) (bad_segments self) (peaks self)
     (uncorrected_peaks self) (x_vec self) (edition_ self) (rejection_ self).

Definition set_bad_segments (b : option (list Z)) (self : t) : t :=
  Mk (sfreq self) (signal self) (signal_type self) b (peaks self)
     (uncorrected_peaks self) (x_vec self) (edition_ self) (rejection_ self).

Definition set_peaks (p : option (list bool)) (self : t) : t :=
  Mk (sfreq self) (signal self) (signal_type self) (bad_segments self) p
     (uncorrected_peaks self) (x_vec self) (edition_ self) (rejection_ self).

Definition set_uncorrected_peaks (p : option (list bool)) (self : t) : t :=
  Mk (sfreq self) (signal self) (signal_type self) (bad_segments self)
     (peaks self) p (x_vec self) (edition_ self) (rejection_ self).

Definition set_x_vec (x : option (list Q)) (self : t) : t :=
  Mk (sfreq self) (signal self) (signal_type self) (bad_segments self)
     (peaks self) (uncorrected_peaks self) x (edition_ self) (rejection_ self).

Definition set_edition (m : edition) (self : t) : t :=
  Mk (sfreq self) (signal self) (signal_type self) (bad_segments self)
     (peaks self) (uncorrected_peaks self) (x_vec self) m (rejection_ self).

(** A method body: it runs on the object, ends normally or by raising, and
    leaves the object as mutated up to that point. *)
Definition M (A : Type) : Type := t -> result A * t.

#[global] Instance M_ret : MRet M := fun A a self => (Ok a, self).

#[global] Instance M_bind : MBind M :=
  fun A B (k : A -> M B) (m : M A) self =>
    match m self with
    | (Ok a, self') => k a self'
    | (Raise e, self') => (Raise e, self')
    end.

Definition gets {A : Type} (f : t -> A) : M A := fun self => (Ok (f self), self).

Definition modify (f : t -> t) : M unit := fun self => (Ok tt, f self).

Definition lift {A : Type} (r : result A) : M A := fun self => (r, self).

(** An attribute that must not be [None] for the operation applied to it. *)
Definition attr {A : Type} (e : exn) (f : t -> option A) : M A :=
  fun self => (unwrap e (f self), self).

(** [date2num(pd.to_datetime(np.arange(0, n), unit="ms", origin="unix"))]:
    sample [i] lies [i] milliseconds, that is [i / 86400000] days, after the
    epoch. *)
Definition time_axis (n : nat) : list Q :=
  map (fun i => Z.of_nat i # 86400000) (seq 0 n).

Section Detection.

(** The detectors of [systole.detection]. [ecg_peaks] and [ppg_peaks] return
    the resampled signal and the peaks vector, [rsp_peaks] the signal and the
    pair of the peaks and troughs vectors. *)
Variable ecg_peaks : list Q -> nat -> result (list Q * list bool).
Variable ppg_peaks : list Q -> nat -> result (list Q * list bool).
Variable rsp_peaks : list Q -> nat -> result (list Q * (list bool * list bool)).

(** [Editor.find_peaks], called on an editor whose signal is [s]. *)
Definition find_peaks (s : list Q) : M unit :=
  p ← gets peaks;
  match p with
  | None =>
      ty ← gets signal_type;
      fs ← gets sfreq;
      if String.eqb ty "ECG" then
        r ← lift (ecg_peaks s fs);
        modify (fun self => set_peaks (Some r.2) (set_signal (Some r.1) self))
      else if String.eqb ty "PPG" then
        r ← lift (ppg_peaks s fs);
        modify (fun self => set_peaks (Some r.2) (set_signal (Some r.1) self))
      else if String.eqb ty "RESP" then
        r ← lift (rsp_peaks s fs);
        modify (fun self => set_peaks (Some r.2.1) (set_signal (Some r.1) self))
      else lift (Raise ValueError)
  | Some _ => mret tt
  end;;
  modify (fun self => set_uncorrected_peaks (peaks self) self).

(** The arguments of the constructor. *)
Record args : Type := Args {
  a_signal : option (list Q);
  a_sfreq : nat;
  a_signal_type : string;
  a_viewer : option Viewer.t;
  a_corrected_peaks : option (list bool);
  a_bad_segments : option (list Z);
}.

(** The attribute assignments at the head of [Editor.__init__]. *)
Definition init_attributes (a : args) : t :=
  let self :=
    Mk (a_sfreq a) (a_signal a) (a_signal_type a) (Some []) None None None
       Correction true in
  let self :=
    match a_viewer a with
    | Some viewer => set_bad_segments (Viewer.bad_segments viewer) self
    | None => self
    end in
  set_peaks (a_corrected_peaks a) self.

(** [Editor.__init__]: the attributes, then on a signal the detection, the
    time axis and the bad segments paired up for the first plot. A
    constructor that raises leaves no editor. *)
Definition init (a : args) : result t :=
  let self := init_attributes a in
  match signal self with
  | Some s =>
      let body : M unit :=
        find_peaks s;;
        s' ← attr TypeError signal;
        modify (set_x_vec (Some (time_axis (length s'))));;
        b ← gets bad_segments;
        match b with
        | Some (x :: l) => _ ← lift (pair_up (x :: l)); mret tt
        | _ => mret tt
        end in
      match body self with
      | (Ok _, self') => Ok self'
      | (Raise e, _) => Raise e
      end
  | None => Ok self
  end.

End Detection.

Section Drawing.

(** [systole.plots.plot_raw], called with the signal, the peaks, the
    lower-cased signal type and the bad segments as pairs. It draws; what
    matters here is whether it returns. *)
Variable plot_raw :
  list Q -> option (list bool) -> string -> option (list Utils.interval) ->
  result unit.

(** [Editor.plot_signals()]: on a signal, the bad segments are paired up and
    handed to [plot_raw] with the signal and the peaks, the axes are
    dressed, and [self.fig.set_tight_layout()] raises [TypeError] for want
    of its argument, before the canvas is drawn. *)
Definition plot_signals : M unit :=
  signal ← gets signal;
  match signal with
  | Some signal =>
      b ← gets bad_segments;
      bad_segments ←
        match b with
        | Some (x :: l) => bad ← lift (pair_up (x :: l)); mret (Some bad)
        | _ => mret None
        end;
      peaks ← gets peaks;
      modality ← gets signal_type;
      lift (plot_raw signal peaks (lower modality) bad_segments);;
      lift (Raise TypeError)
  | None => mret tt
  end.

(** [Editor.on_remove(xmin, xmax)] *)
Definition on_remove (xmin xmax : Q) : M unit :=
  xv ← attr AttributeError x_vec;
  let tmin := Np.searchsorted xv xmin in
  let tmax := Np.searchsorted xv xmax in
  mode ← gets edition_;
  match mode with
  | Correction =>
      p ← attr TypeError peaks;
      modify (set_peaks (Some (Np.setslice tmin tmax false p)));;
      plot_signals
  | Rejection =>
      l ← attr AttributeError bad_segments;
      modify (set_bad_segments (Some (l ++ [Z.of_nat tmin])));;
      l ← attr AttributeError bad_segments;
      modify (set_bad_segments (Some (l ++ [Z.of_nat tmax])));;
      l ← attr TypeError bad_segments;
      bad ← lift (pair_up l);
      let bad := Utils.norm_bad_segments bad None in
      modify (set_bad_segments (Some (flatten bad)));;
      plot_signals
  end.

(** [Editor.on_add(xmin, xmax)] *)
Definition on_add (xmin xmax : Q) : M unit :=
  xv ← attr AttributeError x_vec;
  let tmin := Np.searchsorted xv xmin in
  let tmax := Np.searchsorted xv xmax in
  mode ← gets edition_;
  match mode with
  | Correction =>
      s ← attr TypeError signal;
      k ← lift (Np.argmax (Np.slice tmin tmax s));
      p ← attr TypeError peaks;
      p ← lift (Np.setitem (tmin + k) true p);
      modify (set_peaks (Some p));;
      plot_signals
  | Rejection =>
      let good_segments := [(Z.of_nat tmin, Z.of_nat tmax)] in
      l ← attr TypeError bad_segments;
      bad ← lift (pair_up l);
      let bad := Utils.norm_bad_segments bad (Some good_segments) in
      modify (set_bad_segments (Some (flatten bad)));;
      plot_signals
  end.

End Drawing.

(** [Editor.save()]: [file] is the content of [self.corrected_json] before
    the call ([None] when it does not exist), the result the document
    written to it. [np.where] finds no true entry in [None]. *)
Definition save (self : t) (file : option Json.document) : Json.document :=
  let metadata :=
    match file with
    | Some json_data => json_data
    | None => ∅
    end in
  let bad_segments :=
    match bad_segments self with
    | Some (x :: l) => Some (x :: l)
    | _ => None
    end in
  let corrected_info :=
    Json.Block (rejection_ self)
               (match peaks self with Some p => Np.where_ p | None => [] end)
               bad_segments in
  <[lower (signal_type self) := corrected_info]> metadata.

End Editor.

(** ** Vocabulary of the statements *)

(** Sample [x] lies in the half-open interval [p]. *)
Definition inside (x : Z) (p : Utils.interval) : Prop := fst p <= x < snd p.

(** Sample [x] lies in one of the intervals of [l]. *)
Definition covers (l : list Utils.interval) (x : Z) : Prop :=
  Exists (inside x) l.



(** Interval [p] starts no later than interval [q]. *)
Definition le_start (p q : Utils.interval) : Prop := fst p <= fst q.

(** Consecutive intervals are in ascending order of start. *)
Definition sorted_by_start (l : list Utils.interval) : Prop :=
  Sorted (fun p q => fst p < fst q) l.

(** Each interval ends strictly before the next one starts. *)
Definition separated (l : list Utils.interval) : Prop :=
  Sorted (fun p q => snd p < fst q) l.

(** The normal form of a bad-segment collection. *)
Definition normalized (l : list Utils.interval) : Prop :=
  sorted_by_start l /\ separated l.

(** An editor drawn on the signal [s], with peaks vector [p] and time axis
    [xv], all of one length. *)
Definition plotted (self : Editor.t) (s : list Q) (p : list bool)
    (xv : list Q) : Prop :=
  Editor.signal self = Some s /\
  Editor.peaks self = Some p /\
  Editor.x_vec self = Some xv /\
  length p = length s /\
  length xv = length s.

(** The axis coordinate of sample [k]. *)
Definition at_sample (k : Z) : Q := k # 86400000.

(** ** Editors and documents used as concrete instances *)

Module Sample.

(** The saw-tooth signal [0 1 2 3 4 5 6 0 1 ...] of length [n]. *)
Definition ramp (n : nat) : list Q :=
  map (fun i => Z.of_nat (i mod 7) # 1) (seq 0 n).

(** An editor on that signal, without peaks and without bad segments. *)
Definition editor (n : nat) (mode : Editor.edition) : Editor.t :=
  Editor.Mk 1000
    (Some (ramp n))
    "ECG" (Some []) (Some (replicate n false)) (Some (replicate n false))
    (Some (Editor.time_axis n)) mode true.

(** A detector that finds no peak. *)
Definition no_peaks (s : list Q) (fs : nat) : result (list Q * list bool) :=
  Ok (s, replicate (length s) false).

Definition no_breaths (s : list Q) (fs : nat)
  : result (list Q * (list bool * list bool)) :=
  Ok (s, (replicate (length s) false, replicate (length s) false)).

(** A [plot_raw] that draws and returns. *)
Definition plot_raw (signal : list Q) (peaks : option (list bool))
    (modality : string) (bad_segments : option (list Utils.interval))
  : result unit :=
  Ok tt.

(** A viewer that found no corrected JSON file. *)
Definition fresh_viewer : Viewer.t := Viewer.Mk "ECG" None None None.

(** A document that holds a block for the electrocardiogram only. *)
Definition ecg_only : Json.document :=
  {[ "ecg" := Json.Block true [1; 4] (Some [10; 20]) ]}.

End Sample.

(** ** Viewer: finding the recording and starting the editor *)

Module Files.

(** The keys of the JSON sidecar of a recording that [load_file] reads; a key
    that the file does not hold is [None]. *)
Record sidecar : Type := Sidecar {
  SamplingFrequency : option Q;
  Columns : option (list string);
  StartTime : option string;
  EndTime : option string;
}.

(** The attributes of a [Viewer] that [load_file] assigns. *)
Record t : Type := Mk {
  recording_start_time : option string;
  recording_end_time : option string;
  sfreq : option Q;
  input_columns_names : option (list string);
  json_file : option string;
  physio_file : option string;
}.

Definition set_times (b e : option string) (self : t) : t :=
  Mk b e (sfreq self) (input_columns_names self) (json_file self)
     (physio_file self).

Definition set_sfreq (f : option Q) (self : t) : t :=
  Mk (recording_start_time self) (recording_end_time self) f
     (input_columns_names self) (json_file self) (physio_file self).

Definition set_input_columns_names (c : option (list string)) (self : t) : t :=
  Mk (recording_start_time self) (recording_end_time self) (sfreq self) c
     (json_file self) (physio_file self).

Definition set_files (p j : option string) (self : t) : t :=
  Mk (recording_start_time self) (recording_end_time self) (sfreq self)
     (input_columns_names self) j p.

(** [Viewer.load_file]. [physio_files] and [json_files] are what the two
    [glob] calls list, [read_json] the parsed content of a sidecar. The
    boolean tells whether the method returned [self] ([true]) or fell off a
    bare [return], which gives [None] ([false]). *)
Definition load_file (self : t) (physio_files json_files : list string)
    (read_json : string -> sidecar) : result bool * t :=
  let self := Mk None None None None None None in
  match physio_files with
  | [] => (Ok false, set_files None None self)
  | [physio] =>
      let self := set_files (Some physio) (json_file self) self in
      match json_files with
      | [] => (Ok false, set_files None None self)
      | [json] =>
          let self := set_files (physio_file self) (Some json) self in
          let json_data := read_json json in
          match SamplingFrequency json_data with
          | None => (Raise KeyError, self)
          | Some fs =>
              let self := set_sfreq (Some fs) self in
              match Columns json_data with
              | None => (Raise KeyError, self)
              | Some cols =>
                  let self := set_input_columns_names (Some cols) self in
                  match StartTime json_data with
                  | None => (Ok true, self)
                  | Some b =>
                      let self := set_times (Some b) (recording_end_time self) self in
                      match EndTime json_data with
                      | None => (Ok true, self)
                      | Some e =>
                          (Ok true, set_times (recording_start_time self) (Some e) self)
                      end
                  end
              end
          end
      | _ :: _ :: _ => (Ok false, set_files None None self)
      end
  | _ :: _ :: _ => (Ok false, set_files None None self)
  end.

End Files.

(** The arguments [Viewer.plot_signal] builds the editor with. *)
Definition editor_args (viewer : Viewer.t) : Editor.args :=
  Editor.Args (Viewer.input_signal viewer) 1000 (Viewer.signal_type_ viewer)
    (Some viewer) (Viewer.corrected_peaks viewer) (Viewer.bad_segments viewer).

(** [Viewer.plot_signal]: [load_file], then [load_signal] on what it
    returned, then the editor. A [load_file] that returned [None] makes the
    chained call raise [AttributeError]. [signal] is the column of the
    recording resampled at 1000 Hz, [file] the content of the corrected JSON
    file; the viewer's attributes are split over [files] and [viewer]. *)
Definition plot_signal
    (ecg_peaks ppg_peaks : list Q -> nat -> result (list Q * list bool))
    (rsp_peaks : list Q -> nat -> result (list Q * (list bool * list bool)))
    (files : Files.t) (viewer : Viewer.t)
    (physio_files json_files : list string)
    (read_json : string -> Files.sidecar)
    (signal : list Q) (file : option Json.document)
  : result (Files.t * Viewer.t * Editor.t) :=
  match Files.load_file files physio_files json_files read_json with
  | (Raise e, _) => Raise e
  | (Ok false, _) => Raise AttributeError
  | (Ok true, files) =>
      viewer ←
        match Files.physio_file files with
        | None => Ok viewer
        | Some _ => Viewer.load_signal viewer signal file
        end;
      editor ← Editor.init ecg_peaks ppg_peaks rsp_peaks (editor_args viewer);
      Ok (files, viewer, editor)
  end.

(** ** More vocabulary *)

(** The flat list of bad segments is absent or holds whole pairs. *)
Definition paired (b : option (list Z)) : Prop :=
  match b with
  | None => True
  | Some l => Nat.even (length l) = true
  end.

(** The attributes of an editor that no handler assigns. *)
Definition same_recording (self self' : Editor.t) : Prop :=
  Editor.sfreq self' = Editor.sfreq self /\
  Editor.signal self' = Editor.signal self /\
  Editor.signal_type self' = Editor.signal_type self /\
  Editor.uncorrected_peaks self' = Editor.uncorrected_peaks self /\
  Editor.x_vec self' = Editor.x_vec self /\
  Editor.edition_ self' = Editor.edition_ self /\
  Editor.rejection_ self' = Editor.rejection_ self.

(** ** More concrete instances *)

Module Fixture.

(** A sidecar with every key. *)
Definition sidecar : Files.sidecar :=
  Files.Sidecar (Some (1000 # 1)) (Some ["time"; "ecg"]) (Some "09:00")
    (Some "09:05").

(** A viewer before any file has been looked for. *)
Definition blank : Files.t := Files.Mk None None None None None None.

(** An editor on the saw-tooth signal with peaks at samples 1 and 4 and the
    bad segment [2, 5). *)
Definition editor (mode : Editor.edition) : Editor.t :=
  Editor.Mk 1000 (Some (Sample.ramp 6)) "ECG" (Some [2; 5])
    (Some [false; true; false; false; true; false])
    (Some [false; true; false; false; true; false])
    (Some (Editor.time_axis 6)) mode true.

End Fixture.

(** ** Facts about the normalization of bad segments *)

Section Normalization.

Import Utils.

#[local] Instance le_start_trans : Transitive le_start.
Proof. intros p q r; unfold le_start; lia. Qed.

Lemma covers_nil x : covers [] x <-> False.
Proof. unfold covers; rewrite Exists_nil; tauto. Qed.

Lemma covers_cons p l x : covers (p :: l) x <-> inside x p \/ covers l x.
Proof. unfold covers; apply Exists_cons. Qed.

Lemma covers_app l1 l2 x : covers (l1 ++ l2) x <-> covers l1 x \/ covers l2 x.
Proof. unfold covers; apply Exists_app. Qed.

Lemma covers_elem l x : covers l x <-> exists p, p ∈ l /\ inside x p.
Proof. unfold covers; apply Exists_exists. Qed.

Lemma insert_by_start_elem p q l :
  q ∈ insert_by_start p l <-> q = p \/ q ∈ l.
Proof.
  induction l as [|h t IH]; simpl.
  - rewrite list_elem_of_singleton, elem_of_nil; tauto.
  - destruct (fst p <=? fst h).
    + rewrite elem_of_cons; tauto.
    + rewrite !elem_of_cons, IH; tauto.
Qed.

Lemma sort_by_start_elem q l : q ∈ sort_by_start l <-> q ∈ l.
Proof.
  induction l as [|h t IH]; simpl; [tauto|].
  rewrite insert_by_start_elem, elem_of_cons, IH; tauto.
Qed.

Lemma insert_by_start_sorted p l :
  StronglySorted le_start l -> StronglySorted le_start (insert_by_start p l).
Proof.
  induction 1 as [|h t Hs IH Hh]; simpl.
  - repeat constructor.
  - destruct (Z.leb_spec (fst p) (fst h)) as [Hle|Hgt].
    + constructor; [by constructor|].
      constructor; [exact Hle|].
      eapply Forall_impl; [exact Hh|]. intros q Hq. unfold le_start in *; lia.
    + constructor; [exact IH|].
      apply Forall_forall; intros q Hq.
      apply insert_by_start_elem in Hq as [->|Hq].
      * unfold le_start; lia.
      * by eapply Forall_forall in Hh.
Qed.

Lemma sort_by_start_sorted l : StronglySorted le_start (sort_by_start l).
Proof.
  induction l as [|h t IH]; simpl; [constructor|].
  by apply insert_by_start_sorted.
Qed.

Lemma merge_from_head cur l :
  exists e rest, merge_from cur l = (fst cur, e) :: rest /\ snd cur <= e.
Proof.
  revert cur; induction l as [|h t IH]; intros cur; simpl.
  - exists (snd cur), []. by destruct cur.
  - destruct (fst h <=? snd cur).
    + destruct (IH (fst cur, Z.max (snd cur) (snd h))) as (e & rest & -> & He).
      simpl in *. exists e, rest; split; [done|lia].
    + exists (snd cur), (merge_from h t). by destruct cur.
Qed.

Lemma merge_from_separated cur l : separated (merge_from cur l).
Proof.
  revert cur; induction l as [|h t IH]; intros cur; simpl.
  - repeat constructor.
  - destruct (Z.leb_spec (fst h) (snd cur)) as [Hle|Hgt]; [apply IH|].
    constructor; [apply IH|].
    destruct (merge_from_head h t) as (e & rest & -> & _).
    constructor; simpl; lia.
Qed.


Lemma merge_from_sorted cur l :
  nonempty cur = true -> Forall (fun p => nonempty p = true) l ->
  sorted_by_start (merge_from cur l).
Proof.
  revert cur; induction l as [|h t IH]; intros cur Hc Hl; simpl.
  - repeat constructor.
  - apply Forall_cons in Hl as [Hh Ht].
    destruct (Z.leb_spec (fst h) (snd cur)) as [Hle|Hgt].
    + apply IH; [|done]. unfold nonempty in *; simpl.
      apply Z.ltb_lt. apply Z.ltb_lt in Hc. lia.
    + constructor; [by apply IH|].
      destruct (merge_from_head h t) as (e & rest & -> & _).
      constructor; simpl. unfold nonempty in Hc. apply Z.ltb_lt in Hc. lia.
Qed.

Lemma merge_from_covers cur l x :
  StronglySorted le_start (cur :: l) ->
  covers (merge_from cur l) x <-> inside x cur \/ covers l x.
Proof.
  revert cur; induction l as [|h t IH]; intros cur Hs; simpl.
  - rewrite covers_cons, covers_nil; tauto.
  - apply StronglySorted_inv in Hs as [Hs Hl].
    apply Forall_cons in Hl as [Hh Ht].
    destruct (Z.leb_spec (fst h) (snd cur)) as [Hle|Hgt].
    + rewrite IH, covers_cons.
      * assert (inside x (cur.1, Z.max cur.2 h.2) <-> inside x cur \/ inside x h)
          as -> by (unfold inside, le_start in *; simpl; lia).
        tauto.
      * apply StronglySorted_inv in Hs as [Hs _]. by constructor.
    + rewrite !covers_cons, IH by done. tauto.
Qed.



Lemma normalize_normalized l : normalized (normalize l).
Proof.
  unfold normalize.
  destruct (sort_by_start _) as [|h t] eqn:E; [split; constructor|].
  assert (Forall (fun p => nonempty p = true) (h :: t)) as H.
  { apply Forall_forall; intros q Hq. rewrite <- E in Hq.
    apply sort_by_start_elem, list_elem_of_filter in Hq. tauto. }
  apply Forall_cons in H as [Hh Ht].
  split; [by apply merge_from_sorted|apply merge_from_separated].
Qed.

Lemma normalize_covers l x : covers (normalize l) x <-> covers l x.
Proof.
  unfold normalize.
  pose proof (sort_by_start_sorted (filter (fun p => nonempty p = true) l)) as Hs.
  assert (covers (sort_by_start (filter (fun p => nonempty p = true) l)) x
          <-> covers l x) as <-.
  { rewrite !covers_elem. split; intros (p & Hp & Hx); exists p.
    - apply sort_by_start_elem, list_elem_of_filter in Hp. tauto.
    - split; [|done]. apply sort_by_start_elem, list_elem_of_filter.
      split; [|done]. unfold nonempty, inside in *. apply Z.ltb_lt. lia. }
  destruct (sort_by_start _) as [|h t]; [done|].
  by rewrite merge_from_covers, covers_cons.
Qed.


Lemma carve_one_covers g b x :
  covers (carve_one g b) x <-> inside x b /\ ~ inside x g.
Proof.
  destruct g as [gs ge], b as [s e]. unfold carve_one.
  destruct (Z.leb_spec e gs), (Z.leb_spec ge s), (Z.leb_spec gs s),
    (Z.leb_spec e ge), (Z.ltb_spec s gs), (Z.ltb_spec ge e); simpl;
    rewrite ?covers_cons, ?covers_nil; unfold inside; simpl; lia.
Qed.

Lemma carve_covers g l x :
  covers (carve g l) x <-> covers l x /\ ~ inside x g.
Proof.
  unfold carve. induction l as [|b t IH]; simpl.
  - rewrite covers_nil; tauto.
  - rewrite covers_app, covers_cons, IH, carve_one_covers. tauto.
Qed.

Lemma carve_one_nonempty g b :
  nonempty b = true -> Forall (fun p => nonempty p = true) (carve_one g b).
Proof.
  destruct g as [gs ge], b as [s e]. unfold carve_one, nonempty; simpl.
  intros Hb%Z.ltb_lt.
  destruct (Z.leb_spec e gs), (Z.leb_spec ge s), (Z.leb_spec gs s),
    (Z.leb_spec e ge), (Z.ltb_spec s gs), (Z.ltb_spec ge e); simpl;
    repeat constructor; simpl; apply Z.ltb_lt; lia.
Qed.


Lemma pair_up_flatten bs : pair_up (flatten bs) = Ok bs.
Proof.
  induction bs as [|[s e] t IH]; simpl; [done|]. by rewrite IH.
Qed.

Lemma flatten_app l1 l2 : flatten (l1 ++ l2) = flatten l1 ++ flatten l2.
Proof.
  induction l1 as [|[s e] t IH]; simpl; [done|]. by rewrite IH.
Qed.

End Normalization.

(** ** Facts about the numpy operations *)

Section NumpyFacts.

Import Np.

Lemma Qltb_true x y : Qltb x y = true -> (x < y)%Q.
Proof.
  unfold Qltb. intros H%negb_true_iff. apply Qnot_le_lt. intros Hle.
  apply Qle_bool_iff in Hle. congruence.
Qed.

Lemma Qltb_false x y : Qltb x y = false -> (y <= x)%Q.
Proof.
  unfold Qltb. intros H%negb_false_iff. by apply Qle_bool_iff.
Qed.

Lemma searchsorted_le_length a v : (searchsorted a v <= length a)%nat.
Proof.
  induction a as [|y t IH]; simpl; [lia|]. destruct (Qltb y v); lia.
Qed.

Lemma Qltb_at_sample (i k : Z) :
  Qltb (i # 86400000) (at_sample k) = (i <? k).
Proof.
  unfold Qltb, at_sample, Qle_bool; simpl.
  destruct (Z.ltb_spec i k), (Z.leb_spec (k * 86400000) (i * 86400000));
    simpl; lia.
Qed.

Lemma searchsorted_seq (a n : nat) (k : Z) :
  searchsorted (map (fun i => Z.of_nat i # 86400000) (seq a n)) (at_sample k)
  = Z.to_nat (Z.min (Z.max (k - Z.of_nat a) 0) (Z.of_nat n)).
Proof.
  revert a; induction n as [|n IH]; intros a; simpl searchsorted.
  - lia.
  - rewrite Qltb_at_sample. destruct (Z.ltb_spec (Z.of_nat a) k).
    + rewrite IH. lia.
    + lia.
Qed.

(** On the time axis of the editor the coordinate of sample [k] is mapped
    back to [k], clipped to the length of the signal. *)
Lemma searchsorted_time_axis (n k : nat) :
  searchsorted (Editor.time_axis n) (at_sample (Z.of_nat k)) = Nat.min k n.
Proof.
  unfold Editor.time_axis. rewrite searchsorted_seq. lia.
Qed.

Lemma slice_lookup {A} (lo hi : nat) (a : list A) (j : nat) :
  (lo + j < hi)%nat -> slice lo hi a !! j = a !! (lo + j)%nat.
Proof.
  intros H. unfold slice. rewrite lookup_drop, lookup_take_lt by lia. done.
Qed.

Lemma slice_length {A} (lo hi : nat) (a : list A) :
  length (slice lo hi a) = (Nat.min hi (length a) - lo)%nat.
Proof. unfold slice. rewrite length_drop, length_take. lia. Qed.

Lemma slice_empty {A} (lo : nat) (a : list A) : slice lo lo a = [].
Proof.
  apply length_zero_iff_nil. rewrite slice_length. lia.
Qed.

Lemma argmax_from_max l : forall best bi i,
  exists m, (argmax_from best bi i l = bi /\ m = best \/
             exists j, argmax_from best bi i l = (i + j)%nat /\ l !! j = Some m)
            /\ (best <= m)%Q
            /\ forall j y, l !! j = Some y -> (y <= m)%Q.
Proof.
  induction l as [|x t IH]; intros best bi i; simpl.
  - exists best. split; [by left|]. split; [apply Qle_refl|].
    intros j y Hj. by rewrite lookup_nil in Hj.
  - destruct (Qltb best x) eqn:E.
    + apply Qltb_true in E.
      destruct (IH x i (S i)) as (m & Hr & Hx & Hall). exists m.
      split; [|split].
      * right. destruct Hr as [[-> ->]|(j & -> & Hj)].
        -- exists O. split; [lia|done].
        -- exists (S j). split; [lia|done].
      * eapply Qle_trans; [apply Qlt_le_weak, E|done].
      * intros [|j] y Hj; simpl in Hj; [by injection Hj as <-|by eapply Hall].
    + apply Qltb_false in E.
      destruct (IH best bi (S i)) as (m & Hr & Hb & Hall). exists m.
      split; [|split; [done|]].
      * destruct Hr as [[-> ->]|(j & -> & Hj)]; [by left|right].
        exists (S j). split; [lia|done].
      * intros [|j] y Hj; simpl in Hj; [|by eapply Hall].
        injection Hj as <-. by eapply Qle_trans.
Qed.

(** [np.argmax] of a non-empty array is the index of an entry that no entry
    of the array exceeds. *)
Lemma argmax_max a :
  a <> [] ->
  exists k m, argmax a = Ok k /\ a !! k = Some m /\
              forall j y, a !! j = Some y -> (y <= m)%Q.
Proof.
  destruct a as [|x t]; [done|intros _]. simpl.
  destruct (argmax_from_max t x O 1%nat) as (m & Hr & Hx & Hall).
  exists (argmax_from x 0 1 t), m. split; [done|]. split.
  - destruct Hr as [[-> ->]|(j & -> & Hj)]; done.
  - intros [|j] y Hj; simpl in Hj; [by injection Hj as <-|by eapply Hall].
Qed.

Lemma setslice_lookup {A} lo hi (v : A) a (i : nat) :
  setslice lo hi v a !! i =
  (fun x => if ((lo <=? i) && (i <? hi))%nat then v else x) <$> a !! i.
Proof. unfold setslice. by rewrite list_lookup_imap. Qed.

(** Clearing the one-sample slice at [i] undoes a peak set at [i] where
    there was none. *)
Lemma setslice_insert_false (p : list bool) (i : nat) :
  p !! i = Some false ->
  setslice i (S i) false (<[i:=true]> p) = p.
Proof.
  intros Hi. apply list_eq; intros j. rewrite setslice_lookup.
  destruct (decide (j = i)) as [->|Hne].
  - rewrite list_lookup_insert_eq by (by eapply lookup_lt_Some).
    simpl. rewrite Nat.leb_refl. rewrite (proj2 (Nat.ltb_lt i (S i))) by lia.
    done.
  - rewrite list_lookup_insert_ne by done.
    destruct (p !! j) as [b|]; simpl; [|done].
    destruct (Nat.leb_spec i j), (Nat.ltb_spec j (S i)); simpl; try done. lia.
Qed.



Lemma index_array_int64 (idx : list Z) :
  idx <> [] ->
  Forall (fun i => - 2 ^ 63 <= i < 2 ^ 63) idx ->
  index_array idx = Ok idx.
Proof.
  intros Hne Hall. unfold index_array. destruct idx as [|i t]; [done|].
  rewrite (proj2 (forallb_forall _ (i :: t))); [done|].
  intros z Hz%list_elem_of_In. eapply Forall_forall in Hall; [|exact Hz].
  apply andb_true_iff. split; [apply Z.leb_le|apply Z.ltb_lt]; lia.
Qed.



End NumpyFacts.

(** ** The handlers, branch by branch *)

(** Unfolds a handler down to the attribute reads of its body. *)
Ltac run :=
  unfold Editor.on_add, Editor.on_remove, mbind, Editor.M_bind, Editor.attr,
    Editor.gets, Editor.lift, Editor.modify, unwrap;
  simpl.

Section Handlers.

Import Editor.

Implicit Types plot_raw :
  list Q -> option (list bool) -> string -> option (list Utils.interval) ->
  result unit.

(** Drawing leaves the editor as it found it. *)
Lemma plot_signals_state plot_raw self : (plot_signals plot_raw self).2 = self.
Proof.
  unfold plot_signals, mbind, M_bind, gets, lift, mret, M_ret. simpl.
  destruct (signal self) as [s|]; simpl; [|done].
  destruct (bad_segments self) as [[|x l]|]; simpl.
  - by destruct (plot_raw _ _ _ _).
  - change (match l with
            | [] => Raise IndexError
            | e :: t => pair_up t ≫= λ ps : list (Z * Z), Ok ((x, e) :: ps)
            end) with (pair_up (x :: l)).
    destruct (pair_up (x :: l)); simpl; [|done].
    by destruct (plot_raw _ _ _ _).
  - by destruct (plot_raw _ _ _ _).
Qed.

(** On a signal, drawing does not return. *)
Lemma plot_signals_raises plot_raw self s :
  signal self = Some s -> (plot_signals plot_raw self).1 <> Ok tt.
Proof.
  intros Hs. unfold plot_signals, mbind, M_bind, gets, lift, mret, M_ret.
  simpl. rewrite Hs. simpl.
  destruct (bad_segments self) as [[|x l]|]; simpl.
  - by destruct (plot_raw _ _ _ _).
  - change (match l with
            | [] => Raise IndexError
            | e :: t => pair_up t ≫= λ ps : list (Z * Z), Ok ((x, e) :: ps)
            end) with (pair_up (x :: l)).
    destruct (pair_up (x :: l)); simpl; [|done].
    by destruct (plot_raw _ _ _ _).
  - by destruct (plot_raw _ _ _ _).
Qed.

Lemma on_add_correction plot_raw self xv s p xmin xmax :
  x_vec self = Some xv -> edition_ self = Correction ->
  signal self = Some s -> peaks self = Some p ->
  on_add plot_raw xmin xmax self =
  let tmin := Np.searchsorted xv xmin in
  let tmax := Np.searchsorted xv xmax in
  match Np.argmax (Np.slice tmin tmax s) with
  | Ok k =>
      match Np.setitem (tmin + k) true p with
      | Ok p' => plot_signals plot_raw (set_peaks (Some p') self)
      | Raise e => (Raise e, self)
      end
  | Raise e => (Raise e, self)
  end.
Proof.
  intros Hx Hm Hs Hp. run. rewrite Hx, Hm, Hs. simpl.
  destruct (Np.argmax _) as [k|e]; [|done]. rewrite Hp.
  destruct (Np.setitem _ _ _); [|done].
  by destruct (plot_signals _ _) as [[[]|] ?].
Qed.

Lemma on_remove_correction plot_raw self xv p xmin xmax :
  x_vec self = Some xv -> edition_ self = Correction -> peaks self = Some p ->
  on_remove plot_raw xmin xmax self =
  plot_signals plot_raw
    (set_peaks (Some (Np.setslice (Np.searchsorted xv xmin)
                        (Np.searchsorted xv xmax) false p)) self).
Proof.
  intros Hx Hm Hp. run. rewrite Hx, Hm, Hp.
  by destruct (plot_signals _ _) as [[[]|] ?].
Qed.

Lemma on_remove_rejection plot_raw self xv bs xmin xmax :
  x_vec self = Some xv -> edition_ self = Rejection ->
  bad_segments self = Some (flatten bs) ->
  on_remove plot_raw xmin xmax self =
  plot_signals plot_raw
    (set_bad_segments
       (Some (flatten (Utils.norm_bad_segments
                         (bs ++ [(Z.of_nat (Np.searchsorted xv xmin),
                                  Z.of_nat (Np.searchsorted xv xmax))]) None)))
       self).
Proof.
  intros Hx Hm Hb. run. rewrite Hx, Hm, Hb. simpl.
  rewrite <- app_assoc. simpl.
  change [Z.of_nat (Np.searchsorted xv xmin); Z.of_nat (Np.searchsorted xv xmax)]
    with (flatten [(Z.of_nat (Np.searchsorted xv xmin),
                    Z.of_nat (Np.searchsorted xv xmax))]).
  rewrite <- flatten_app, pair_up_flatten.
  destruct self; simpl. by destruct (plot_signals _ _) as [[[]|] ?].
Qed.

Lemma on_add_rejection plot_raw self xv bs xmin xmax :
  x_vec self = Some xv -> edition_ self = Rejection ->
  bad_segments self = Some (flatten bs) ->
  on_add plot_raw xmin xmax self =
  plot_signals plot_raw
    (set_bad_segments
       (Some (flatten (Utils.norm_bad_segments bs
                         (Some [(Z.of_nat (Np.searchsorted xv xmin),
                                 Z.of_nat (Np.searchsorted xv xmax))]))))
       self).
Proof.
  intros Hx Hm Hb. run. rewrite Hx, Hm, Hb. simpl.
  rewrite pair_up_flatten. by destruct (plot_signals _ _) as [[[]|] ?].
Qed.

End Handlers.

(** ** Marking and unmarking bad segments *)

Section BadSegments.

Import Editor.

Implicit Types plot_raw :
  list Q -> option (list bool) -> string -> option (list Utils.interval) ->
  result unit.



Lemma normalize_one s e : s < e -> Utils.normalize [(s, e)] = [(s, e)].
Proof.
  intros H. unfold Utils.normalize. rewrite filter_cons, filter_nil.
  case_decide as Hd; [done|]. unfold Utils.nonempty in Hd; simpl in Hd.
  apply not_true_is_false, Z.ltb_nlt in Hd. lia.
Qed.

Lemma normalize_two s1 e1 s2 e2 :
  s1 < e1 -> e1 < s2 -> s2 < e2 ->
  Utils.normalize [(s1, e1); (s2, e2)] = [(s1, e1); (s2, e2)].
Proof.
  intros H1 H12 H2. unfold Utils.normalize.
  rewrite !filter_cons, filter_nil. unfold Utils.nonempty; simpl.
  do 2 (case_decide as Hd;
        [clear Hd|apply not_true_is_false, Z.ltb_nlt in Hd; lia]). simpl.
  destruct (Z.leb_spec s1 s2); [|lia]. simpl.
  destruct (Z.leb_spec s2 e1); [lia|done].
Qed.

(** C5. In rejection mode [on_add] carves the selected good interval out of
    the bad segments, whatever the drawing that follows does: the bad
    segments of the editor it leaves hold exactly the samples of the old
    intervals that lie outside the good interval. Of a single bad interval
    nothing is left when the good interval covers it, the part on the far
    side is left when the good interval overlaps one end, and a left and a
    right remainder are left when it straddles the good interval.
    Unmarking [5,25) on {[10,20)} leaves nothing, unmarking [15,20) on
    {[10,30)} leaves {[10,15), [20,30)}. *)
Theorem unmark_bad_carves :
  (forall plot_raw (self : Editor.t) (xv : list Q)
          (bs : list Utils.interval) (xmin xmax : Q),
      x_vec self = Some xv ->
      edition_ self = Rejection ->
      bad_segments self = Some (flatten bs) ->
      let good := (Z.of_nat (Np.searchsorted xv xmin),
                   Z.of_nat (Np.searchsorted xv xmax)) in
      exists carved,
        bad_segments (on_add plot_raw xmin xmax self).2
        = Some (flatten carved) /\
        (forall x, covers carved x <-> covers bs x /\ ~ inside x good) /\
        (forall s e, bs = [(s, e)] -> s < e -> fst good < snd good ->
           (fst good <= s /\ e <= snd good -> carved = []) /\
           (s < fst good /\ snd good < e ->
              carved = [(s, fst good); (snd good, e)]) /\
           (fst good <= s /\ s < snd good /\ snd good < e ->
              carved = [(snd good, e)]) /\
           (s < fst good /\ fst good < e /\ e <= snd good ->
              carved = [(s, fst good)]))) /\
  (forall plot_raw,
      bad_segments
        (on_add plot_raw (at_sample 5) (at_sample 25)
           (set_bad_segments (Some [10; 20]) (Sample.editor 40 Rejection))).2
      = Some []) /\
  (forall plot_raw,
      bad_segments
        (on_add plot_raw (at_sample 15) (at_sample 20)
           (set_bad_segments (Some [10; 30]) (Sample.editor 40 Rejection))).2
      = Some [10; 15; 20; 30]).
Proof.
  split; [|split].
  2:{ intros plot_raw.
      rewrite (on_add_rejection plot_raw _ (time_axis 40) [(10, 20)])
        by reflexivity.
      rewrite plot_signals_state. by vm_compute. }
  2:{ intros plot_raw.
      rewrite (on_add_rejection plot_raw _ (time_axis 40) [(10, 30)])
        by reflexivity.
      rewrite plot_signals_state. by vm_compute. }
  intros plot_raw self xv bs xmin xmax Hx Hm Hb good.
  exists (Utils.norm_bad_segments bs (Some [good])). split; [|split].
  - by rewrite (on_add_rejection plot_raw self xv bs), plot_signals_state.
  - intros x. simpl. by rewrite normalize_covers, carve_covers.
  - intros s e -> Hse Hg. destruct good as [gs ge]. simpl in Hg |- *.
    unfold Utils.carve_one.
    repeat split; intros H;
      destruct (Z.leb_spec e gs), (Z.leb_spec ge s), (Z.leb_spec gs s),
        (Z.leb_spec e ge), (Z.ltb_spec s gs), (Z.ltb_spec ge e);
      try lia; simpl;
      first [ done | by apply normalize_one | by apply normalize_two ].
Qed.

Lemma unmark_bad_carves_witness :
  exists carved,
    bad_segments
      (on_add Sample.plot_raw (at_sample 15) (at_sample 20)
         (set_bad_segments (Some (flatten [(10, 30)]))
            (Sample.editor 40 Rejection))).2
    = Some (flatten carved) /\
    (forall x, covers carved x <-> covers [(10, 30)] x /\ ~ inside x (15, 20)) /\
    (forall s e, [(10, 30)] = [(s, e)] -> s < e -> 15 < 20 ->
       (15 <= s /\ e <= 20 -> carved = []) /\
       (s < 15 /\ 20 < e -> carved = [(s, 15); (20, e)]) /\
       (15 <= s /\ s < 20 /\ 20 < e -> carved = [(20, e)]) /\
       (s < 15 /\ 15 < e /\ e <= 20 -> carved = [(s, 15)])).
Proof.
  apply (proj1 unmark_bad_carves Sample.plot_raw
           (set_bad_segments (Some (flatten [(10, 30)]))
              (Sample.editor 40 Rejection))
           (time_axis 40) [(10, 30)] (at_sample 15) (at_sample 20));
    reflexivity.
Defined.

(** C6. In rejection mode both [on_remove] (mark bad) and [on_add] (unmark
    bad) leave the editor with a normalized collection of bad segments,
    whatever the drawing that follows does: its intervals are in ascending
    order of start and each one ends strictly before the next one
    starts. *)
Theorem bad_segments_stay_normalized
    plot_raw (self : Editor.t) (xv : list Q) (bs : list Utils.interval)
    (xmin xmax : Q) :
  x_vec self = Some xv ->
  edition_ self = Rejection ->
  bad_segments self = Some (flatten bs) ->
  (exists marked,
      bad_segments (on_remove plot_raw xmin xmax self).2
      = Some (flatten marked) /\
      sorted_by_start marked /\ separated marked) /\
  (exists unmarked,
      bad_segments (on_add plot_raw xmin xmax self).2
      = Some (flatten unmarked) /\
      sorted_by_start unmarked /\ separated unmarked).
Proof.
  intros Hx Hm Hb. split.
  - eexists. split.
    + by rewrite (on_remove_rejection plot_raw self xv bs), plot_signals_state.
    + apply normalize_normalized.
  - eexists. split.
    + by rewrite (on_add_rejection plot_raw self xv bs), plot_signals_state.
    + apply normalize_normalized.
Qed.

Lemma bad_segments_stay_normalized_witness :
  (exists marked,
      bad_segments
        (on_remove Sample.plot_raw (at_sample 12) (at_sample 31)
           (set_bad_segments (Some (flatten [(30, 35); (10, 15)]))
              (Sample.editor 40 Rejection))).2
      = Some (flatten marked) /\
      sorted_by_start marked /\ separated marked) /\
  (exists unmarked,
      bad_segments
        (on_add Sample.plot_raw (at_sample 12) (at_sample 31)
           (set_bad_segments (Some (flatten [(30, 35); (10, 15)]))
              (Sample.editor 40 Rejection))).2
      = Some (flatten unmarked) /\
      sorted_by_start unmarked /\ separated unmarked).
Proof.
  apply (bad_segments_stay_normalized Sample.plot_raw
           (set_bad_segments (Some (flatten [(30, 35); (10, 15)]))
              (Sample.editor 40 Rejection))
           (time_axis 40) [(30, 35); (10, 15)] (at_sample 12) (at_sample 31));
    reflexivity.
Defined.

End BadSegments.

(** ** Inserting and removing peaks *)

Section Peaks.

Import Editor.

Implicit Types plot_raw :
  list Q -> option (list bool) -> string -> option (list Utils.interval) ->
  result unit.

(** C7. In correction mode, on a non-empty range [tmin, tmax) of the signal,
    [on_add] leaves the editor with a peaks vector that is the old one set
    to true at [tmin + argmax(signal[tmin:tmax])], an index of the range
    whose sample no sample of the range exceeds: that entry is true and
    every other entry is as it was. The drawing that follows does not
    return. *)
Theorem insert_strongest_peak_at_argmax
    plot_raw (self : Editor.t) (s : list Q) (p : list bool) (xv : list Q)
    (xmin xmax : Q) :
  plotted self s p xv ->
  edition_ self = Correction ->
  let tmin := Np.searchsorted xv xmin in
  let tmax := Np.searchsorted xv xmax in
  (tmin < tmax)%nat ->
  exists k m p',
    Np.argmax (Np.slice tmin tmax s) = Ok k /\
    (tmin + k < tmax)%nat /\
    s !! (tmin + k)%nat = Some m /\
    (forall j y, (tmin <= j < tmax)%nat -> s !! j = Some y -> (y <= m)%Q) /\
    peaks (on_add plot_raw xmin xmax self).2 = Some p' /\
    length p' = length p /\
    p' !! (tmin + k)%nat = Some true /\
    (forall j, j <> (tmin + k)%nat -> p' !! j = p !! j) /\
    (on_add plot_raw xmin xmax self).1 <> Ok tt.
Proof.
  intros (Hs & Hp & Hx & Hlp & Hlx) Hm tmin tmax Hlt.
  pose proof (searchsorted_le_length xv xmax) as Hmax. fold tmax in Hmax.
  assert (length (Np.slice tmin tmax s) = (tmax - tmin)%nat) as Hlen
    by (rewrite slice_length; lia).
  destruct (argmax_max (Np.slice tmin tmax s)) as (k & m & Hk & Hkm & Hall).
  { intros E. rewrite E in Hlen. simpl in Hlen. lia. }
  assert (k < tmax - tmin)%nat as Hkb
    by (rewrite <- Hlen; by eapply lookup_lt_Some).
  assert (on_add plot_raw xmin xmax self
          = plot_signals plot_raw
              (set_peaks (Some (<[(tmin + k)%nat := true]> p)) self)) as Hrun.
  { rewrite (on_add_correction plot_raw self xv s p) by done. simpl.
    fold tmin tmax. rewrite Hk. unfold Np.setitem.
    destruct (Nat.ltb_spec (tmin + k) (length p)); [done|lia]. }
  exists k, m, (<[(tmin + k)%nat := true]> p).
  split; [done|]. split; [lia|].
  split; [|split; [|split; [|split; [|split; [|split]]]]].
  - rewrite <- Hkm. symmetry. apply slice_lookup. lia.
  - intros j y Hj Hy. apply (Hall (j - tmin)%nat).
    rewrite slice_lookup by lia. rewrite <- Hy. f_equal. lia.
  - by rewrite Hrun, plot_signals_state.
  - apply length_insert.
  - apply list_lookup_insert_eq. lia.
  - intros j Hj. by apply list_lookup_insert_ne.
  - rewrite Hrun. by apply (plot_signals_raises _ _ s).
Qed.

Lemma insert_strongest_peak_at_argmax_witness :
  exists k m p',
    Np.argmax (Np.slice 3 12 (Sample.ramp 14)) = Ok k /\
    (3 + k < 12)%nat /\
    Sample.ramp 14 !! (3 + k)%nat = Some m /\
    (forall j y, (3 <= j < 12)%nat -> Sample.ramp 14 !! j = Some y ->
                 (y <= m)%Q) /\
    peaks (on_add Sample.plot_raw (at_sample 3) (at_sample 12)
             (Sample.editor 14 Correction)).2 = Some p' /\
    length p' = length (replicate 14 false) /\
    p' !! (3 + k)%nat = Some true /\
    (forall j, j <> (3 + k)%nat -> p' !! j = replicate 14 false !! j) /\
    (on_add Sample.plot_raw (at_sample 3) (at_sample 12)
       (Sample.editor 14 Correction)).1 <> Ok tt.
Proof.
  apply (insert_strongest_peak_at_argmax Sample.plot_raw
           (Sample.editor 14 Correction)
           (Sample.ramp 14) (replicate 14 false) (time_axis 14)
           (at_sample 3) (at_sample 12)).
  - repeat split; reflexivity.
  - reflexivity.
  - vm_compute. lia.
Defined.

(** C8. In correction mode, on an empty range ([tmin = tmax]), [on_add]
    raises the [ValueError] of [np.argmax] and leaves the editor, its peaks
    vector and its bad segments included, as it was. *)
Theorem insert_strongest_peak_empty_range
    plot_raw (self : Editor.t) (s : list Q) (xv : list Q) (xmin xmax : Q) :
  x_vec self = Some xv ->
  signal self = Some s ->
  edition_ self = Correction ->
  Np.searchsorted xv xmin = Np.searchsorted xv xmax ->
  on_add plot_raw xmin xmax self = (Raise ValueError, self).
Proof.
  intros Hx Hs Hm Heq. run. rewrite Hx, Hm, Hs. simpl.
  by rewrite Heq, slice_empty.
Qed.

Lemma insert_strongest_peak_empty_range_witness :
  on_add Sample.plot_raw (at_sample 4) (at_sample 4)
    (Sample.editor 14 Correction)
  = (Raise ValueError, Sample.editor 14 Correction).
Proof.
  apply (insert_strongest_peak_empty_range Sample.plot_raw
           (Sample.editor 14 Correction)
           (Sample.ramp 14) (time_axis 14) (at_sample 4) (at_sample 4));
    reflexivity.
Defined.

(** C9, as stated: inserting a peak at [i] and then removing the peaks of
    [i, i+1) gives the peaks vector back. It fails where [i] held a peak
    before the insertion: the insertion changes nothing and the removal
    clears the peak. The second handler runs on the editor as the first one
    left it. *)
Lemma insert_then_remove_counterexample :
  peaks
    (on_remove Sample.plot_raw (at_sample 1) (at_sample 2)
       (on_add Sample.plot_raw (at_sample 1) (at_sample 2)
          (set_peaks (Some [false; true; false])
             (Sample.editor 3 Correction))).2).2
  = Some [false; false; false] /\
  peaks
    (on_remove Sample.plot_raw (at_sample 1) (at_sample 2)
       (on_add Sample.plot_raw (at_sample 1) (at_sample 2)
          (set_peaks (Some [false; true; false])
             (Sample.editor 3 Correction))).2).2
  <> peaks (set_peaks (Some [false; true; false]) (Sample.editor 3 Correction)).
Proof. split; vm_compute; [reflexivity|discriminate]. Qed.

(** C9, amended. In correction mode, where sample [i] holds no peak,
    [on_add] over [i, i+1) followed by [on_remove] over [i, i+1), the second
    running on the editor as the first left it, leaves the editor, and so
    its peaks vector, exactly as it was before the insertion; in between
    the peaks vector is the old one with a peak at [i]. *)
Theorem insert_then_remove_restores
    plot_raw (self : Editor.t) (s : list Q) (p : list bool) (xv : list Q)
    (xmin xmax xmin' xmax' : Q) (i : nat) :
  plotted self s p xv ->
  edition_ self = Correction ->
  Np.searchsorted xv xmin = i -> Np.searchsorted xv xmax = S i ->
  Np.searchsorted xv xmin' = i -> Np.searchsorted xv xmax' = S i ->
  p !! i = Some false ->
  peaks (on_add plot_raw xmin xmax self).2 = Some (<[i:=true]> p) /\
  <[i:=true]> p <> p /\
  (on_remove plot_raw xmin' xmax' (on_add plot_raw xmin xmax self).2).2 = self /\
  peaks (on_remove plot_raw xmin' xmax' (on_add plot_raw xmin xmax self).2).2
  = Some p.
Proof.
  intros (Hs & Hp & Hx & Hlp & Hlx) Hm Hmin Hmax Hmin' Hmax' Hi.
  pose proof (lookup_lt_Some _ _ _ Hi) as Hlt.
  assert ((on_add plot_raw xmin xmax self).2
          = set_peaks (Some (<[i:=true]> p)) self) as Hadd.
  { rewrite (on_add_correction plot_raw self xv s p) by done. simpl.
    rewrite Hmin, Hmax.
    assert (exists m, Np.slice i (S i) s = [m]) as [m ->].
    { assert (length (Np.slice i (S i) s) = 1%nat) as Hl
        by (rewrite slice_length; lia).
      destruct (Np.slice i (S i) s) as [|m [|m' t]]; [done| |done].
      by exists m. }
    simpl. unfold Np.setitem. rewrite Nat.add_0_r.
    destruct (Nat.ltb_spec i (length p)); [|lia].
    apply plot_signals_state. }
  assert ((on_remove plot_raw xmin' xmax' (on_add plot_raw xmin xmax self).2).2
          = self) as Hback.
  { rewrite Hadd.
    rewrite (on_remove_correction plot_raw _ xv (<[i:=true]> p)); [|done..].
    rewrite plot_signals_state.
    rewrite Hmin', Hmax', setslice_insert_false by done.
    destruct self; simpl in *. by subst. }
  split; [by rewrite Hadd|]. split; [|split; [done|by rewrite Hback]].
  intros Heq. assert (<[i:=true]> p !! i = Some true) as Ht
    by by apply list_lookup_insert_eq.
  rewrite Heq in Ht. congruence.
Qed.

Lemma insert_then_remove_restores_witness :
  peaks (on_add Sample.plot_raw (at_sample 1) (at_sample 2)
           (Sample.editor 3 Correction)).2
  = Some (<[1%nat:=true]> (replicate 3 false)) /\
  <[1%nat:=true]> (replicate 3 false) <> replicate 3 false /\
  (on_remove Sample.plot_raw (at_sample 1) (at_sample 2)
     (on_add Sample.plot_raw (at_sample 1) (at_sample 2)
        (Sample.editor 3 Correction)).2).2
  = Sample.editor 3 Correction /\
  peaks
    (on_remove Sample.plot_raw (at_sample 1) (at_sample 2)
       (on_add Sample.plot_raw (at_sample 1) (at_sample 2)
          (Sample.editor 3 Correction)).2).2
  = Some (replicate 3 false).
Proof.
  apply (insert_then_remove_restores Sample.plot_raw
           (Sample.editor 3 Correction)
           (Sample.ramp 3) (replicate 3 false) (time_axis 3)
           (at_sample 1) (at_sample 2) (at_sample 1) (at_sample 2) 1%nat);
    first [ reflexivity | repeat split; reflexivity ].
Defined.

End Peaks.

(** ** The constructor *)

Section Constructor.

Import Editor.

(** Whatever the detectors return, [find_peaks] leaves the bad segments
    alone. *)
Lemma find_peaks_bad_segments
    (ecg_peaks ppg_peaks : list Q -> nat -> result (list Q * list bool))
    (rsp_peaks : list Q -> nat -> result (list Q * (list bool * list bool)))
    (s : list Q) (self : Editor.t) :
  bad_segments (find_peaks ecg_peaks ppg_peaks rsp_peaks s self).2
  = bad_segments self.
Proof.
  unfold find_peaks, mbind, M_bind, gets, lift, modify, mret, M_ret. simpl.
  destruct (peaks self); simpl; [done|].
  destruct (String.eqb _ "ECG"); [by destruct (ecg_peaks _ _)|].
  destruct (String.eqb _ "PPG"); [by destruct (ppg_peaks _ _)|].
  destruct (String.eqb _ "RESP"); [by destruct (rsp_peaks _ _)|done].
Qed.

Lemma init_attributes_bad_segments a :
  bad_segments (init_attributes a)
  = match a_viewer a with
    | None => Some []
    | Some viewer => Viewer.bad_segments viewer
    end.
Proof. unfold init_attributes. by destruct (a_viewer a). Qed.

End Constructor.

(** C10. An editor built without a viewer starts with the empty list of bad
    segments, whatever the [bad_segments] argument of the constructor; an
    editor built with a viewer starts with the viewer's [bad_segments]
    attribute, be it a list or [None]. *)
Theorem init_bad_segments
    (ecg_peaks ppg_peaks : list Q -> nat -> result (list Q * list bool))
    (rsp_peaks : list Q -> nat -> result (list Q * (list bool * list bool)))
    (a : Editor.args) (self : Editor.t) :
  Editor.init ecg_peaks ppg_peaks rsp_peaks a = Ok self ->
  Editor.bad_segments self
  = match Editor.a_viewer a with
    | None => Some []
    | Some viewer => Viewer.bad_segments viewer
    end.
Proof.
  rewrite <- init_attributes_bad_segments. unfold Editor.init.
  generalize (Editor.init_attributes a) as self0. intros self0.
  destruct (Editor.signal self0) as [s|]; [|by intros [= <-]].
  unfold mbind at 1. unfold Editor.M_bind at 1.
  pose proof (find_peaks_bad_segments ecg_peaks ppg_peaks rsp_peaks s self0)
    as Hb.
  destruct (Editor.find_peaks _ _ _ s _) as [[[]|e] self1]; [|done].
  simpl in Hb. rewrite <- Hb.
  unfold mbind, Editor.M_bind, Editor.attr, Editor.gets, Editor.lift,
    Editor.modify, mret, Editor.M_ret, unwrap. simpl.
  destruct (Editor.signal self1) as [s1|]; [|done]. simpl.
  destruct (Editor.bad_segments self1) as [[|x bs]|] eqn:Hbs; simpl;
    try (by intros [= <-]).
  change (match bs with
          | [] => Raise IndexError
          | e :: t => pair_up t ≫= λ ps : list (Z * Z), Ok ((x, e) :: ps)
          end) with (pair_up (x :: bs)).
  destruct (pair_up (x :: bs)); [|done]. by intros [= <-].
Qed.

Lemma init_bad_segments_witness :
  exists self,
    Editor.init Sample.no_peaks Sample.no_peaks Sample.no_breaths
      (Editor.Args (Some (Sample.ramp 5)) 1000 "ECG" None None (Some [1; 3]))
    = Ok self /\
    Editor.bad_segments self = Some [].
Proof.
  eexists. split; [vm_compute; reflexivity|].
  apply (init_bad_segments Sample.no_peaks Sample.no_peaks Sample.no_breaths
           (Editor.Args (Some (Sample.ramp 5)) 1000 "ECG" None None
              (Some [1; 3]))).
  vm_compute. reflexivity.
Defined.

(** ** The corrected JSON file *)

Section Persistence.

(** What [save] writes of the bad segments: the list, or [null] when there
    is none. *)
Lemma save_block self file :
  Editor.save self file !! lower (Editor.signal_type self)
  = Some (Json.Block (Editor.rejection_ self)
            (match Editor.peaks self with
             | Some p => Np.where_ p
             | None => []
             end)
            (match Editor.bad_segments self with
             | Some (x :: l) => Some (x :: l)
             | _ => None
             end)).
Proof. unfold Editor.save. by rewrite lookup_insert_eq. Qed.

(** [load_signal] on a recording that has samples. *)
Lemma load_signal_on_samples viewer s file :
  s <> [] ->
  Viewer.load_signal viewer s file =
  match file with
  | Some json_data =>
      blk ← unwrap KeyError (json_data !! lower (Viewer.signal_type_ viewer));
      peaks ← Np.setitem_array (Json.corrected_peaks blk) true
                (Np.zeros (length s));
      Ok (Viewer.Mk (Viewer.signal_type_ viewer) (Some s) (Some peaks)
            (Json.bad_segments blk))
  | None => Ok (Viewer.Mk (Viewer.signal_type_ viewer) (Some s) None None)
  end.
Proof.
  intros Hs. unfold Viewer.load_signal. destruct s as [|y t]; [done|].
  destruct file as [json_data|]; [|done]. simpl.
  by destruct (json_data !! lower (Viewer.signal_type_ viewer)).
Qed.


(** A state without any peak is saved with an empty index list, which
    [load_signal] cannot read back. *)
Lemma save_load_no_peak self p viewer file s :
  s <> [] ->
  Editor.peaks self = Some p ->
  Np.where_ p = [] ->
  lower (Viewer.signal_type_ viewer) = lower (Editor.signal_type self) ->
  Viewer.load_signal viewer s (Some (Editor.save self file)) = Raise IndexError.
Proof.
  intros Hs Hp He Hty. rewrite load_signal_on_samples by done.
  rewrite Hty, save_block. simpl. by rewrite Hp, He.
Qed.

(** C1, at a state without peaks. The editor on a three-sample signal with
    no peak saves ["corrected_peaks": []]; reading the file back raises
    [IndexError] instead of giving the empty set of peaks. *)
Theorem save_load_without_peaks_raises :
  Viewer.load_signal Sample.fresh_viewer (Sample.ramp 3)
    (Some (Editor.save (Sample.editor 3 Editor.Correction) None))
  = Raise IndexError.
Proof.
  by apply (save_load_no_peak _ (replicate 3 false)).
Qed.

(** C2. [save] on an existing document puts the block of the editor under
    the lower-cased signal type and leaves the block under every other key
    as it was. *)
Theorem save_keeps_other_blocks
    (self : Editor.t) (json_data : Json.document) (key : string) :
  key <> lower (Editor.signal_type self) ->
  Editor.save self (Some json_data) !! key = json_data !! key /\
  Editor.save self (Some json_data) !! lower (Editor.signal_type self)
  = Some (Json.Block (Editor.rejection_ self)
            (match Editor.peaks self with
             | Some p => Np.where_ p
             | None => []
             end)
            (match Editor.bad_segments self with
             | Some (x :: l) => Some (x :: l)
             | _ => None
             end)).
Proof.
  intros Hne. split.
  - unfold Editor.save. by rewrite lookup_insert_ne.
  - apply save_block.
Qed.

Lemma save_keeps_other_blocks_witness :
  Editor.save
    (Editor.Mk 1000 (Some (Sample.ramp 3)) "PPG" (Some [])
       (Some [false; true; false]) None (Some (Editor.time_axis 3))
       Editor.Correction true)
    (Some Sample.ecg_only) !! "ecg"
  = Sample.ecg_only !! "ecg" /\
  Editor.save
    (Editor.Mk 1000 (Some (Sample.ramp 3)) "PPG" (Some [])
       (Some [false; true; false]) None (Some (Editor.time_axis 3))
       Editor.Correction true)
    (Some Sample.ecg_only) !! "ppg"
  = Some (Json.Block true [1] None).
Proof.
  apply (save_keeps_other_blocks
           (Editor.Mk 1000 (Some (Sample.ramp 3)) "PPG" (Some [])
              (Some [false; true; false]) None (Some (Editor.time_axis 3))
              Editor.Correction true)
           Sample.ecg_only "ecg").
  vm_compute. discriminate.
Defined.

(** A document without a block for the signal type of the viewer makes
    [load_signal] raise [KeyError]. *)
Lemma load_signal_missing_block viewer s (json_data : Json.document) :
  s <> [] ->
  json_data !! lower (Viewer.signal_type_ viewer) = None ->
  Viewer.load_signal viewer s (Some json_data) = Raise KeyError.
Proof.
  intros Hs Hnone. rewrite load_signal_on_samples by done. by rewrite Hnone.
Qed.

(** C3, at a document with a block for "ecg" only: loading the respiration
    signal raises [KeyError]; no absent result is returned. *)
Theorem load_signal_without_block_raises :
  Viewer.load_signal (Viewer.Mk "RESP" None None None) (Sample.ramp 3)
    (Some Sample.ecg_only)
  = Raise KeyError.
Proof. by apply load_signal_missing_block. Qed.

End Persistence.

(** ** The flat encoding of bad segments *)

Section FlatList.

Lemma flatten_length bs : length (flatten bs) = (2 * length bs)%nat.
Proof.
  induction bs as [|[s e] t IH]; simpl; [done|]. rewrite IH. lia.
Qed.

Lemma pair_up_outcome l :
  match pair_up l with
  | Ok bs => l = flatten bs
  | Raise e => e = IndexError /\ Nat.even (length l) = false
  end.
Proof.
  assert (forall l : list Z,
            match pair_up l with
            | Ok bs => l = flatten bs
            | Raise e => e = IndexError /\ Nat.even (length l) = false
            end /\
            forall x,
              match pair_up (x :: l) with
              | Ok bs => x :: l = flatten bs
              | Raise e => e = IndexError /\ Nat.even (length (x :: l)) = false
              end) as H; [|apply H].
  clear l. induction l as [|y t [IH1 IH2]].
  - split; [done|]. intros x. by simpl.
  - split; [apply IH2|]. intros x.
    change (pair_up (x :: y :: t)) with (ps ← pair_up t; Ok ((x, y) :: ps)).
    change (Nat.even (length (x :: y :: t))) with (Nat.even (length t)).
    destruct (pair_up t) as [bs|e]; simpl; [by rewrite IH1|done].
Qed.

(** X1. The list comprehension that pairs up the flat list and the
    flattening of the pairs are inverse to each other: pairing succeeds with
    [bs] exactly on the flattening of [bs]. *)
Theorem pair_up_flatten_inverse (l : list Z) (bs : list Utils.interval) :
  pair_up l = Ok bs <-> l = flatten bs.
Proof.
  split.
  - intros H. pose proof (pair_up_outcome l) as Ho. by rewrite H in Ho.
  - intros ->. apply pair_up_flatten.
Qed.

(** X2. Pairing up a flat list raises exactly when its length is odd, and
    then it raises [IndexError]. *)
Theorem pair_up_raises_on_odd (l : list Z) :
  (Nat.even (length l) = false <-> pair_up l = Raise IndexError) /\
  (Nat.even (length l) = true <-> exists bs, pair_up l = Ok bs) /\
  forall e, pair_up l = Raise e -> e = IndexError.
Proof.
  pose proof (pair_up_outcome l) as Ho.
  destruct (pair_up l) as [bs|e] eqn:E.
  - assert (Nat.even (length l) = true) as Hev.
    { rewrite Ho, flatten_length, Nat.even_mul. done. }
    split; [|split].
    + rewrite Hev. split; discriminate.
    + split; eauto.
    + discriminate.
  - destruct Ho as [-> Hodd]. split; [|split].
    + done.
    + rewrite Hodd. split; [discriminate|]. by intros [bs [=]].
    + by intros e [= <-].
Qed.

Lemma paired_flatten (b : option (list Z)) :
  paired b -> b = None \/ exists bs, b = Some (flatten bs).
Proof.
  destruct b as [l|]; [|by left]. simpl. intros Hev. right.
  pose proof (pair_up_outcome l) as Ho.
  destruct (pair_up l) as [bs|e]; [exists bs; by subst|].
  destruct Ho as [_ Ho]. congruence.
Qed.

Lemma paired_Some_flatten bs : paired (Some (flatten bs)).
Proof. simpl. by rewrite flatten_length, Nat.even_mul. Qed.

End FlatList.

(** ** More facts about the numpy operations *)

Section MoreNumpyFacts.

Import Np.

Lemma Qltb_lt x y : (x < y)%Q -> Qltb x y = true.
Proof.
  intros H. unfold Qltb. apply negb_true_iff.
  destruct (Qle_bool y x) eqn:E; [|done].
  apply Qle_bool_iff in E. by apply Qle_not_lt in E.
Qed.

Lemma searchsorted_mono a v w :
  (v <= w)%Q -> (searchsorted a v <= searchsorted a w)%nat.
Proof.
  intros Hvw. induction a as [|y t IH]; simpl; [lia|].
  destruct (Qltb y v) eqn:E; [|lia].
  apply Qltb_true in E.
  rewrite (Qltb_lt y w) by (by eapply Qlt_le_trans). lia.
Qed.

Lemma where_from_elem a : forall k z,
  z ∈ where_from k a <->
  exists j, z = Z.of_nat (k + j) /\ a !! j = Some true.
Proof.
  induction a as [|b t IH]; intros k z; simpl.
  - split; [by intros H%elem_of_nil|]. by intros (j & _ & H).
  - assert (z ∈ where_from (S k) t <->
            exists j, z = Z.of_nat (k + S j) /\ t !! j = Some true) as IH'.
    { rewrite IH. split; intros (j & -> & Hj); exists j; (split; [f_equal; lia|done]). }
    destruct b; [rewrite elem_of_cons|]; rewrite IH'; split.
    + intros [->|(j & -> & Hj)]; [exists O|exists (S j)]; (split; [f_equal; lia|done]).
    + intros ([|j] & -> & Hj); [left; f_equal; lia|right; by exists j].
    + intros (j & -> & Hj). by exists (S j).
    + intros ([|j] & -> & Hj); [done|by exists j].
Qed.

Lemma where_from_sorted a : forall k,
  StronglySorted Z.lt (where_from k a).
Proof.
  induction a as [|b t IH]; intros k; simpl; [constructor|].
  destruct b; [|apply IH]. constructor; [apply IH|].
  apply Forall_forall. intros z (j & -> & _)%where_from_elem. lia.
Qed.

Lemma set_each_outcome idx : forall a,
  match set_each idx true a with
  | Ok a' =>
      Forall (fun i => - Z.of_nat (length a) <= i < Z.of_nat (length a)) idx /\
      length a' = length a /\
      forall j, a' !! j = Some true <->
                a !! j = Some true \/
                ((j < length a)%nat /\
                 (Z.of_nat j ∈ idx \/ Z.of_nat j - Z.of_nat (length a) ∈ idx))
  | Raise e =>
      e = IndexError /\
      Exists (fun i => ~ (- Z.of_nat (length a) <= i < Z.of_nat (length a))) idx
  end.
Proof.
  induction idx as [|i t IH]; intros a; simpl.
  - split; [constructor|]. split; [done|]. intros j. split; [by left|].
    intros [H|(_ & [H|H])]; [done|by apply elem_of_nil in H..].
  - unfold axis_index.
    destruct (Z.leb_spec 0 i), (Z.ltb_spec i (Z.of_nat (length a))),
      (Z.leb_spec (- Z.of_nat (length a)) i), (Z.ltb_spec i 0); simpl;
      try lia;
      try (split; [done|]; apply Exists_cons_hd; lia).
    + specialize (IH (<[Z.to_nat i:=true]> a)). rewrite length_insert in IH.
      destruct (set_each t true _) as [a'|e].
      * destruct IH as (Hall & Hlen & Hlk). split; [constructor; [lia|done]|].
        split; [done|]. intros j. rewrite Hlk.
        destruct (decide (j = Z.to_nat i)) as [->|Hne].
        -- rewrite list_lookup_insert_eq by lia. rewrite elem_of_cons.
           split; [intros _; right; split; [lia|left; left; lia]|by left].
        -- rewrite list_lookup_insert_ne by done. rewrite !elem_of_cons.
           split; [intros [?|(? & [?|?])]|intros [?|(? & [[?|?]|[?|?]])]];
             try tauto; try lia.
      * destruct IH as [-> Hex]. split; [done|]. by apply Exists_cons_tl.
    + specialize (IH (<[Z.to_nat (i + Z.of_nat (length a)):=true]> a)).
      rewrite length_insert in IH.
      destruct (set_each t true _) as [a'|e].
      * destruct IH as (Hall & Hlen & Hlk). split; [constructor; [lia|done]|].
        split; [done|]. intros j. rewrite Hlk.
        destruct (decide (j = Z.to_nat (i + Z.of_nat (length a)))) as [->|Hne].
        -- rewrite list_lookup_insert_eq by lia. rewrite !elem_of_cons.
           split; [intros _; right; split; [lia|right; left; lia]|by left].
        -- rewrite list_lookup_insert_ne by done. rewrite !elem_of_cons.
           split; [intros [?|(? & [?|?])]|intros [?|(? & [[?|?]|[?|?]])]];
             try tauto; try lia.
      * destruct IH as [-> Hex]. split; [done|]. by apply Exists_cons_tl.
Qed.

End MoreNumpyFacts.

(** ** What the handlers keep *)

Section HandlerInvariants.

Import Editor.

Implicit Types plot_raw :
  list Q -> option (list bool) -> string -> option (list Utils.interval) ->
  result unit.

(** X3. Neither handler, in either mode and whether it returns or raises,
    assigns the signal, the time axis, the uncorrected peaks, the sampling
    frequency, the signal type or the two widgets. In correction mode the
    bad segments are left alone as well, in rejection mode the peaks. *)
Theorem handlers_frame plot_raw (self : Editor.t) (xmin xmax : Q) :
  (same_recording self (on_remove plot_raw xmin xmax self).2 /\
   (edition_ self = Correction ->
    bad_segments (on_remove plot_raw xmin xmax self).2 = bad_segments self) /\
   (edition_ self = Rejection ->
    peaks (on_remove plot_raw xmin xmax self).2 = peaks self)) /\
  (same_recording self (on_add plot_raw xmin xmax self).2 /\
   (edition_ self = Correction ->
    bad_segments (on_add plot_raw xmin xmax self).2 = bad_segments self) /\
   (edition_ self = Rejection ->
    peaks (on_add plot_raw xmin xmax self).2 = peaks self)).
Proof.
  unfold same_recording. split.
  - run. destruct (x_vec self) as [xv|] eqn:Hx; simpl;
      [|repeat split; congruence].
    destruct (edition_ self) eqn:Hm; simpl.
    + destruct (peaks self) eqn:Hp; simpl; [|repeat split; congruence].
      destruct (plot_signals plot_raw _) as [[[]|] self'] eqn:Hd;
        pose proof (plot_signals_state plot_raw
                      (set_peaks (Some (Np.setslice (Np.searchsorted xv xmin)
                                          (Np.searchsorted xv xmax) false l))
                         self)) as Hst;
        rewrite Hd in Hst; simpl in Hst; subst self'; simpl;
        repeat split; congruence.
    + destruct (bad_segments self) as [l|] eqn:Hb; simpl;
        [|repeat split; congruence].
      destruct (pair_up _); simpl; [|repeat split; congruence].
      match goal with
      | |- context [plot_signals plot_raw ?st] =>
          pose proof (plot_signals_state plot_raw st) as Hst;
          destruct (plot_signals plot_raw st) as [[[]|] self']
      end; simpl in Hst; subst self'; simpl; repeat split; congruence.
  - run. destruct (x_vec self) as [xv|] eqn:Hx; simpl;
      [|repeat split; congruence].
    destruct (edition_ self) eqn:Hm; simpl.
    + destruct (signal self) eqn:Hs; simpl; [|repeat split; congruence].
      destruct (Np.argmax _); simpl; [|repeat split; congruence].
      destruct (peaks self) eqn:Hp; simpl; [|repeat split; congruence].
      destruct (Np.setitem _ _ _); simpl; [|repeat split; congruence].
      match goal with
      | |- context [plot_signals plot_raw ?st] =>
          pose proof (plot_signals_state plot_raw st) as Hst;
          destruct (plot_signals plot_raw st) as [[[]|] self']
      end; simpl in Hst; subst self'; simpl; repeat split; congruence.
    + destruct (bad_segments self) as [l|] eqn:Hb; simpl;
        [|repeat split; congruence].
      destruct (pair_up _); simpl; [|repeat split; congruence].
      match goal with
      | |- context [plot_signals plot_raw ?st] =>
          pose proof (plot_signals_state plot_raw st) as Hst;
          destruct (plot_signals plot_raw st) as [[[]|] self']
      end; simpl in Hst; subst self'; simpl; repeat split; congruence.
Qed.

(** X4. A flat list of bad segments that is absent or holds whole pairs stays
    so through both handlers, in either mode and whether the handler or the
    drawing at its end raises. In rejection mode, when the list is present,
    the pairing inside the handler does not raise: the handler gets as far
    as the drawing, and on a signal it ends there with an exception. *)
Theorem handlers_keep_pairs plot_raw (self : Editor.t) (xmin xmax : Q) :
  paired (bad_segments self) ->
  paired (bad_segments (on_remove plot_raw xmin xmax self).2) /\
  paired (bad_segments (on_add plot_raw xmin xmax self).2) /\
  (edition_ self = Rejection -> is_Some (x_vec self) ->
   is_Some (bad_segments self) ->
   (exists marked,
       on_remove plot_raw xmin xmax self
       = plot_signals plot_raw
           (set_bad_segments (Some (flatten marked)) self)) /\
   (exists unmarked,
       on_add plot_raw xmin xmax self
       = plot_signals plot_raw
           (set_bad_segments (Some (flatten unmarked)) self)) /\
   (is_Some (signal self) ->
    (on_remove plot_raw xmin xmax self).1 <> Ok tt /\
    (on_add plot_raw xmin xmax self).1 <> Ok tt)).
Proof.
  intros Hp.
  destruct (x_vec self) as [xv|] eqn:Hx.
  2:{ run. rewrite Hx. simpl. repeat split; try done.
      all: by intros _ [? [=]]. }
  destruct (edition_ self) eqn:Hm.
  - split; [|split; [|done]].
    + pose proof (plot_signals_state plot_raw) as Hst.
      run. rewrite Hx, Hm. simpl.
      destruct (peaks self); simpl; [|done].
      match goal with
      | |- context [plot_signals plot_raw ?st] =>
          specialize (Hst st);
          destruct (plot_signals plot_raw st) as [[[]|] self']
      end; simpl in Hst; by subst self'.
    + pose proof (plot_signals_state plot_raw) as Hst.
      run. rewrite Hx, Hm. simpl.
      destruct (signal self); simpl; [|done].
      destruct (Np.argmax _); simpl; [|done].
      destruct (peaks self); simpl; [|done].
      destruct (Np.setitem _ _ _); simpl; [|done].
      match goal with
      | |- context [plot_signals plot_raw ?st] =>
          specialize (Hst st);
          destruct (plot_signals plot_raw st) as [[[]|] self']
      end; simpl in Hst; by subst self'.
  - destruct (paired_flatten _ Hp) as [Hn|[bs Hb]].
    + run. rewrite Hx, Hm, Hn. simpl. repeat split; try done.
      all: by intros _ _ [? [=]].
    + rewrite (on_remove_rejection plot_raw self xv bs),
        (on_add_rejection plot_raw self xv bs) by done.
      rewrite !plot_signals_state. simpl.
      split; [apply paired_Some_flatten|].
      split; [apply paired_Some_flatten|].
      intros _ _ _. split; [by eexists|]. split; [by eexists|].
      intros [s Hs]. split; by apply (plot_signals_raises _ _ s).
Qed.

Lemma handlers_keep_pairs_witness :
  paired (bad_segments
            (on_remove Sample.plot_raw (at_sample 1) (at_sample 3)
               (Fixture.editor Rejection)).2) /\
  paired (bad_segments
            (on_add Sample.plot_raw (at_sample 1) (at_sample 3)
               (Fixture.editor Rejection)).2) /\
  (edition_ (Fixture.editor Rejection) = Rejection ->
   is_Some (x_vec (Fixture.editor Rejection)) ->
   is_Some (bad_segments (Fixture.editor Rejection)) ->
   (exists marked,
       on_remove Sample.plot_raw (at_sample 1) (at_sample 3)
         (Fixture.editor Rejection)
       = plot_signals Sample.plot_raw
           (set_bad_segments (Some (flatten marked))
              (Fixture.editor Rejection))) /\
   (exists unmarked,
       on_add Sample.plot_raw (at_sample 1) (at_sample 3)
         (Fixture.editor Rejection)
       = plot_signals Sample.plot_raw
           (set_bad_segments (Some (flatten unmarked))
              (Fixture.editor Rejection))) /\
   (is_Some (signal (Fixture.editor Rejection)) ->
    (on_remove Sample.plot_raw (at_sample 1) (at_sample 3)
       (Fixture.editor Rejection)).1 <> Ok tt /\
    (on_add Sample.plot_raw (at_sample 1) (at_sample 3)
       (Fixture.editor Rejection)).1 <> Ok tt)).
Proof.
  apply (handlers_keep_pairs Sample.plot_raw (Fixture.editor Rejection)
           (at_sample 1) (at_sample 3)).
  reflexivity.
Defined.

(** X5. In rejection mode, on an editor whose bad segments are [None] (what
    a viewer hands over when no corrected file holds any), marking a bad
    segment raises [AttributeError] and unmarking one raises [TypeError];
    the editor is left as it was. *)
Theorem rejection_without_list_raises
    plot_raw (self : Editor.t) (xv : list Q) (xmin xmax : Q) :
  x_vec self = Some xv ->
  edition_ self = Rejection ->
  bad_segments self = None ->
  on_remove plot_raw xmin xmax self = (Raise AttributeError, self) /\
  on_add plot_raw xmin xmax self = (Raise TypeError, self).
Proof.
  intros Hx Hm Hb. split; run; by rewrite Hx, Hm, Hb.
Qed.

Lemma rejection_without_list_raises_witness :
  on_remove Sample.plot_raw (at_sample 1) (at_sample 3)
    (set_bad_segments None (Fixture.editor Rejection))
  = (Raise AttributeError, set_bad_segments None (Fixture.editor Rejection)) /\
  on_add Sample.plot_raw (at_sample 1) (at_sample 3)
    (set_bad_segments None (Fixture.editor Rejection))
  = (Raise TypeError, set_bad_segments None (Fixture.editor Rejection)).
Proof.
  apply (rejection_without_list_raises Sample.plot_raw
           (set_bad_segments None (Fixture.editor Rejection))
           (time_axis 6) (at_sample 1) (at_sample 3));
    reflexivity.
Defined.

(** X14. On an editor with a signal no call of a handler returns: it
    raises before its assignment, or it ends in [plot_signals], which
    raises. In correction mode, on an editor with a time axis, a peaks
    vector and whole pairs of bad segments, when [plot_raw] returns, what
    [on_remove] raises is the [TypeError] of [set_tight_layout()]. *)
Theorem handlers_end_in_drawing
    plot_raw (self : Editor.t) (s : list Q) (xmin xmax : Q) :
  signal self = Some s ->
  (on_remove plot_raw xmin xmax self).1 <> Ok tt /\
  (on_add plot_raw xmin xmax self).1 <> Ok tt /\
  (is_Some (x_vec self) -> is_Some (peaks self) ->
   edition_ self = Correction ->
   paired (bad_segments self) ->
   (forall sig pk ty bad, plot_raw sig pk ty bad = Ok tt) ->
   (on_remove plot_raw xmin xmax self).1 = Raise TypeError).
Proof.
  intros Hs.
  split; [|split].
  - run. destruct (x_vec self) as [xv|]; simpl; [|done].
    destruct (edition_ self); simpl.
    + destruct (peaks self); simpl; [|done]. by apply (plot_signals_raises _ _ s).
    + destruct (bad_segments self); simpl; [|done].
      destruct (pair_up _); simpl; [|done]. by apply (plot_signals_raises _ _ s).
  - run. destruct (x_vec self) as [xv|]; simpl; [|done].
    destruct (edition_ self); simpl.
    + rewrite Hs. simpl.
      destruct (Np.argmax _); simpl; [|done].
      destruct (peaks self); simpl; [|done].
      destruct (Np.setitem _ _ _); simpl; [|done]. by apply (plot_signals_raises _ _ s).
    + destruct (bad_segments self); simpl; [|done].
      destruct (pair_up _); simpl; [|done]. by apply (plot_signals_raises _ _ s).
  - intros [xv Hx] [p Hp] Hm Hpair Hraw.
    rewrite (on_remove_correction plot_raw self xv p) by done.
    unfold plot_signals, mbind, M_bind, gets, lift, mret, M_ret. simpl.
    rewrite Hs. simpl.
    destruct (paired_flatten _ Hpair) as [->|[bs ->]]; simpl.
    + by rewrite Hraw.
    + destruct (flatten bs) as [|x l] eqn:E; simpl; [by rewrite Hraw|].
      change (match l with
              | [] => Raise IndexError
              | e :: t => pair_up t ≫= λ ps : list (Z * Z), Ok ((x, e) :: ps)
              end) with (pair_up (x :: l)).
      rewrite <- E, pair_up_flatten. simpl. by rewrite Hraw.
Qed.

Lemma handlers_end_in_drawing_witness :
  (on_remove Sample.plot_raw (at_sample 1) (at_sample 3)
     (Fixture.editor Correction)).1 <> Ok tt /\
  (on_add Sample.plot_raw (at_sample 1) (at_sample 3)
     (Fixture.editor Correction)).1 <> Ok tt /\
  (is_Some (x_vec (Fixture.editor Correction)) ->
   is_Some (peaks (Fixture.editor Correction)) ->
   edition_ (Fixture.editor Correction) = Correction ->
   paired (bad_segments (Fixture.editor Correction)) ->
   (forall sig pk ty bad, Sample.plot_raw sig pk ty bad = Ok tt) ->
   (on_remove Sample.plot_raw (at_sample 1) (at_sample 3)
      (Fixture.editor Correction)).1 = Raise TypeError).
Proof.
  apply (handlers_end_in_drawing Sample.plot_raw (Fixture.editor Correction)
           (Sample.ramp 6) (at_sample 1) (at_sample 3)).
  reflexivity.
Defined.

End HandlerInvariants.

(** ** Selections and the peaks vector *)

Section Selections.

Import Editor.

Implicit Types plot_raw :
  list Q -> option (list bool) -> string -> option (list Utils.interval) ->
  result unit.

(** X6. The two ends of a selection are mapped to sample indices in the same
    order and within the signal: a selection with [xmin <= xmax] gives
    [tmin <= tmax <= len(x_vec)]. *)
Theorem selection_is_ordered (xv : list Q) (xmin xmax : Q) :
  (xmin <= xmax)%Q ->
  (Np.searchsorted xv xmin <= Np.searchsorted xv xmax <= length xv)%nat.
Proof.
  intros H. split; [by apply searchsorted_mono|apply searchsorted_le_length].
Qed.

Lemma selection_is_ordered_witness :
  (Np.searchsorted (time_axis 6) (at_sample 2)
   <= Np.searchsorted (time_axis 6) (at_sample 9) <= length (time_axis 6))%nat.
Proof.
  apply (selection_is_ordered (time_axis 6) (at_sample 2) (at_sample 9)).
  vm_compute. discriminate.
Defined.

(** X7. On the time axis of an [n]-sample signal the coordinate of sample
    [k] is mapped to index [k]: the sample under the left end of a selection
    is in the range, the sample under its right end is not. A coordinate
    before the first sample gives 0, one after the last gives [n]. *)
Theorem selection_on_time_axis (n : nat) (k : Z) :
  Np.searchsorted (time_axis n) (at_sample k)
  = Z.to_nat (Z.min (Z.max k 0) (Z.of_nat n)).
Proof.
  unfold time_axis. rewrite searchsorted_seq. f_equal. lia.
Qed.

Lemma setslice_length {A} lo hi (v : A) a :
  length (Np.setslice lo hi v a) = length a.
Proof. unfold Np.setslice. apply length_imap. Qed.

Lemma setslice_empty {A} lo hi (v : A) a :
  (hi <= lo)%nat -> Np.setslice lo hi v a = a.
Proof.
  intros H. apply list_eq; intros j. rewrite setslice_lookup.
  destruct (a !! j) as [x|]; simpl; [|done].
  destruct (Nat.leb_spec lo j), (Nat.ltb_spec j hi); simpl; try done. lia.
Qed.

Lemma setslice_idemp {A} lo hi (v : A) a :
  Np.setslice lo hi v (Np.setslice lo hi v a) = Np.setslice lo hi v a.
Proof.
  apply list_eq; intros j. rewrite !setslice_lookup.
  destruct (a !! j) as [x|]; simpl; [|done].
  by destruct ((lo <=? j)%nat && (j <? hi)%nat).
Qed.

Lemma set_peaks_same self p : peaks self = Some p -> set_peaks (Some p) self = self.
Proof. destruct self; simpl. by intros ->. Qed.

(** X8. In correction mode [on_remove] clears the peaks of the selected
    range and nothing else, whatever the drawing that follows does: in the
    editor it leaves, the peaks vector has kept its length, every entry of
    [tmin, tmax) is false and every other entry is as before. *)
Theorem remove_peaks_clears_range
    plot_raw (self : Editor.t) (xv : list Q) (p : list bool) (xmin xmax : Q) :
  x_vec self = Some xv ->
  peaks self = Some p ->
  edition_ self = Correction ->
  exists p',
    peaks (on_remove plot_raw xmin xmax self).2 = Some p' /\
    length p' = length p /\
    forall (j : nat) (b : bool),
      p !! j = Some b ->
      p' !! j =
      Some (if decide (Np.searchsorted xv xmin <= j < Np.searchsorted xv xmax)%nat
            then false else b).
Proof.
  intros Hx Hp Hm. eexists. split.
  { by rewrite (on_remove_correction plot_raw self xv p), plot_signals_state. }
  split; [apply setslice_length|].
  intros j b Hj. rewrite setslice_lookup, Hj. simpl. f_equal.
  destruct (Nat.leb_spec (Np.searchsorted xv xmin) j),
    (Nat.ltb_spec j (Np.searchsorted xv xmax)); simpl;
    case_decide; try done; lia.
Qed.

Lemma remove_peaks_clears_range_witness :
  exists p',
    peaks (on_remove Sample.plot_raw (at_sample 0) (at_sample 3)
             (Fixture.editor Correction)).2 = Some p' /\
    length p' = length [false; true; false; false; true; false] /\
    forall (j : nat) (b : bool),
      [false; true; false; false; true; false] !! j = Some b ->
      p' !! j =
      Some (if decide (Np.searchsorted (time_axis 6) (at_sample 0) <= j
                       < Np.searchsorted (time_axis 6) (at_sample 3))%nat
            then false else b).
Proof.
  apply (remove_peaks_clears_range Sample.plot_raw (Fixture.editor Correction)
           (time_axis 6) [false; true; false; false; true; false]
           (at_sample 0) (at_sample 3));
    reflexivity.
Defined.

(** X9. In correction mode an empty selection, or one whose right end is
    not after its left end, removes nothing: [on_remove] leaves the editor
    as it was, whatever the drawing that follows does. *)
Theorem remove_peaks_empty_selection
    plot_raw (self : Editor.t) (xv : list Q) (p : list bool) (xmin xmax : Q) :
  x_vec self = Some xv ->
  peaks self = Some p ->
  edition_ self = Correction ->
  (xmax <= xmin)%Q ->
  (on_remove plot_raw xmin xmax self).2 = self /\
  on_remove plot_raw xmin xmax self = plot_signals plot_raw self.
Proof.
  intros Hx Hp Hm Hle.
  assert (on_remove plot_raw xmin xmax self = plot_signals plot_raw self) as Hrun.
  { rewrite (on_remove_correction plot_raw self xv p) by done.
    rewrite setslice_empty by (by apply searchsorted_mono).
    by rewrite set_peaks_same. }
  split; [|done]. rewrite Hrun. apply plot_signals_state.
Qed.

Lemma remove_peaks_empty_selection_witness :
  (on_remove Sample.plot_raw (at_sample 4) (at_sample 1)
     (Fixture.editor Correction)).2
  = Fixture.editor Correction /\
  on_remove Sample.plot_raw (at_sample 4) (at_sample 1)
    (Fixture.editor Correction)
  = plot_signals Sample.plot_raw (Fixture.editor Correction).
Proof.
  apply (remove_peaks_empty_selection Sample.plot_raw
           (Fixture.editor Correction) (time_axis 6)
           [false; true; false; false; true; false] (at_sample 4) (at_sample 1));
    [reflexivity..|vm_compute; discriminate].
Defined.

(** X10. In correction mode both handlers are idempotent: running one twice
    on the same selection ends in the same outcome and the same editor as
    running it once, both when the second run is chained to the return of
    the first and when it runs on the editor as the first left it. *)
Theorem correction_is_idempotent plot_raw (self : Editor.t) (xmin xmax : Q) :
  edition_ self = Correction ->
  ((on_remove plot_raw xmin xmax ≫= fun _ => on_remove plot_raw xmin xmax) self
   = on_remove plot_raw xmin xmax self /\
   (on_add plot_raw xmin xmax ≫= fun _ => on_add plot_raw xmin xmax) self
   = on_add plot_raw xmin xmax self) /\
  (on_remove plot_raw xmin xmax (on_remove plot_raw xmin xmax self).2
   = on_remove plot_raw xmin xmax self /\
   on_add plot_raw xmin xmax (on_add plot_raw xmin xmax self).2
   = on_add plot_raw xmin xmax self).
Proof.
  intros Hm.
  assert (on_remove plot_raw xmin xmax (on_remove plot_raw xmin xmax self).2
          = on_remove plot_raw xmin xmax self) as Hrem.
  { destruct (x_vec self) as [xv|] eqn:Hx;
      [|run; rewrite Hx; simpl; run; by rewrite Hx].
    destruct (peaks self) as [p|] eqn:Hp;
      [|run; rewrite Hx, Hm; simpl; rewrite Hp; simpl;
        run; rewrite Hx, Hm; simpl; by rewrite Hp].
    rewrite (on_remove_correction plot_raw self xv p) by done.
    rewrite plot_signals_state.
    rewrite (on_remove_correction plot_raw _ xv
               (Np.setslice (Np.searchsorted xv xmin)
                  (Np.searchsorted xv xmax) false p)) by done.
    by rewrite setslice_idemp. }
  assert (on_add plot_raw xmin xmax (on_add plot_raw xmin xmax self).2
          = on_add plot_raw xmin xmax self) as Hadd.
  { destruct (x_vec self) as [xv|] eqn:Hx;
      [|run; rewrite Hx; simpl; run; by rewrite Hx].
    destruct (signal self) as [s|] eqn:Hs;
      [|run; rewrite Hx, Hm; simpl; rewrite Hs; simpl;
        run; rewrite Hx, Hm; simpl; by rewrite Hs].
    destruct (Np.argmax (Np.slice (Np.searchsorted xv xmin)
                           (Np.searchsorted xv xmax) s)) as [k|e] eqn:Hk;
      [|run; rewrite Hx, Hm; simpl; rewrite Hs; simpl; rewrite Hk; simpl;
        run; rewrite Hx, Hm; simpl; rewrite Hs; simpl; by rewrite Hk].
    destruct (peaks self) as [p|] eqn:Hp;
      [|run; rewrite Hx, Hm; simpl; rewrite Hs; simpl; rewrite Hk; simpl;
        rewrite Hp; simpl;
        run; rewrite Hx, Hm; simpl; rewrite Hs; simpl; rewrite Hk; simpl;
        by rewrite Hp].
    rewrite (on_add_correction plot_raw self xv s p) by done. simpl.
    rewrite Hk. unfold Np.setitem.
    destruct (Nat.ltb_spec (Np.searchsorted xv xmin + k) (length p)) as [Hlt|];
      simpl.
    - rewrite plot_signals_state.
      rewrite (on_add_correction plot_raw _ xv s
                 (<[(Np.searchsorted xv xmin + k)%nat:=true]> p)) by done.
      simpl. rewrite Hk. unfold Np.setitem. rewrite length_insert.
      destruct (Nat.ltb_spec (Np.searchsorted xv xmin + k) (length p)); [|lia].
      rewrite list_insert_insert_eq. by destruct self.
    - rewrite (on_add_correction plot_raw self xv s p) by done. simpl.
      rewrite Hk. unfold Np.setitem.
      by destruct (Nat.ltb_spec (Np.searchsorted xv xmin + k) (length p));
        [lia|]. }
  split; [|done]. split.
  - unfold mbind at 1. unfold M_bind at 1.
    destruct (on_remove plot_raw xmin xmax self) as [[[]|e] self1] eqn:E;
      [|done].
    simpl in Hrem. by rewrite Hrem.
  - unfold mbind at 1. unfold M_bind at 1.
    destruct (on_add plot_raw xmin xmax self) as [[[]|e] self1] eqn:E;
      [|done].
    simpl in Hadd. by rewrite Hadd.
Qed.

Lemma correction_is_idempotent_witness :
  ((on_remove Sample.plot_raw (at_sample 0) (at_sample 3) ≫=
      fun _ => on_remove Sample.plot_raw (at_sample 0) (at_sample 3))
     (Fixture.editor Correction)
   = on_remove Sample.plot_raw (at_sample 0) (at_sample 3)
       (Fixture.editor Correction) /\
   (on_add Sample.plot_raw (at_sample 0) (at_sample 3) ≫=
      fun _ => on_add Sample.plot_raw (at_sample 0) (at_sample 3))
     (Fixture.editor Correction)
   = on_add Sample.plot_raw (at_sample 0) (at_sample 3)
       (Fixture.editor Correction)) /\
  (on_remove Sample.plot_raw (at_sample 0) (at_sample 3)
     (on_remove Sample.plot_raw (at_sample 0) (at_sample 3)
        (Fixture.editor Correction)).2
   = on_remove Sample.plot_raw (at_sample 0) (at_sample 3)
       (Fixture.editor Correction) /\
   on_add Sample.plot_raw (at_sample 0) (at_sample 3)
     (on_add Sample.plot_raw (at_sample 0) (at_sample 3)
        (Fixture.editor Correction)).2
   = on_add Sample.plot_raw (at_sample 0) (at_sample 3)
       (Fixture.editor Correction)).
Proof.
  apply (correction_is_idempotent Sample.plot_raw (Fixture.editor Correction)
           (at_sample 0) (at_sample 3)).
  reflexivity.
Defined.

End Selections.

(** ** More on the corrected JSON file *)

Section MorePersistence.

(** X11. The ["corrected_peaks"] list that [save] writes is strictly
    ascending and holds exactly the indices of the true entries of the peaks
    vector, so every entry lies in [0, len(peaks)). *)
Theorem saved_peaks_are_the_true_indices
    (self : Editor.t) (p : list bool) (file : option Json.document) :
  Editor.peaks self = Some p ->
  exists blk,
    Editor.save self file !! lower (Editor.signal_type self) = Some blk /\
    StronglySorted Z.lt (Json.corrected_peaks blk) /\
    (forall z, z ∈ Json.corrected_peaks blk <->
               exists j : nat, z = Z.of_nat j /\ p !! j = Some true) /\
    Forall (fun z => 0 <= z < Z.of_nat (length p)) (Json.corrected_peaks blk).
Proof.
  intros Hp. eexists. split; [apply save_block|]. rewrite Hp. simpl.
  split; [apply where_from_sorted|]. split.
  - intros z. unfold Np.where_. by rewrite where_from_elem.
  - apply Forall_forall. intros z (j & -> & Hj)%where_from_elem.
    apply lookup_lt_Some in Hj. simpl. lia.
Qed.

Lemma saved_peaks_are_the_true_indices_witness :
  exists blk,
    Editor.save (Fixture.editor Editor.Correction) None
      !! lower (Editor.signal_type (Fixture.editor Editor.Correction))
    = Some blk /\
    StronglySorted Z.lt (Json.corrected_peaks blk) /\
    (forall z, z ∈ Json.corrected_peaks blk <->
               exists j : nat,
                 z = Z.of_nat j /\
                 [false; true; false; false; true; false] !! j = Some true) /\
    Forall (fun z => 0 <= z < Z.of_nat (length [false; true; false; false; true; false]))
           (Json.corrected_peaks blk).
Proof.
  apply (saved_peaks_are_the_true_indices (Fixture.editor Editor.Correction)
           [false; true; false; false; true; false] None).
  reflexivity.
Defined.

(** X12. The last save under a key wins: a save by an editor whose signal
    type differs at most in case from that of an earlier save ("ECG",
    "ecg") leaves the document that it would have left without the earlier
    save. In particular saving twice is saving once. *)
Theorem save_overwrites_same_type
    (first second : Editor.t) (file : option Json.document) :
  lower (Editor.signal_type first) = lower (Editor.signal_type second) ->
  Editor.save second (Some (Editor.save first file)) = Editor.save second file.
Proof.
  intros Hk. unfold Editor.save. rewrite Hk. apply insert_insert_eq.
Qed.

Lemma save_overwrites_same_type_witness :
  Editor.save
    (Editor.Mk 1000 (Some (Sample.ramp 3)) "ecg" None (Some [true; false; false])
       None (Some (Editor.time_axis 3)) Editor.Correction false)
    (Some (Editor.save (Fixture.editor Editor.Correction) (Some Sample.ecg_only)))
  = Editor.save
      (Editor.Mk 1000 (Some (Sample.ramp 3)) "ecg" None (Some [true; false; false])
         None (Some (Editor.time_axis 3)) Editor.Correction false)
      (Some Sample.ecg_only).
Proof.
  apply (save_overwrites_same_type (Fixture.editor Editor.Correction)
           (Editor.Mk 1000 (Some (Sample.ramp 3)) "ecg" None
              (Some [true; false; false]) None (Some (Editor.time_axis 3))
              Editor.Correction false)
           (Some Sample.ecg_only)).
  reflexivity.
Defined.

(** X13. Saves of two different signal types to one file do not depend on
    their order, and a save never removes a key: the keys of the document
    written are those of the document read plus the lower-cased signal
    type. *)
Theorem save_of_two_types_commutes
    (one other : Editor.t) (file : option Json.document) :
  lower (Editor.signal_type one) <> lower (Editor.signal_type other) ->
  Editor.save other (Some (Editor.save one file))
  = Editor.save one (Some (Editor.save other file)) /\
  dom (Editor.save other (Some (Editor.save one file)))
  = {[lower (Editor.signal_type one); lower (Editor.signal_type other)]}
    ∪ dom (default ∅ file).
Proof.
  intros Hne. split.
  - unfold Editor.save. by apply insert_insert_ne.
  - unfold Editor.save. rewrite !dom_insert_L, (assoc_L (∪)).
    rewrite (comm_L (∪) {[lower (Editor.signal_type other)]}).
    by destruct file.
Qed.

Lemma save_of_two_types_commutes_witness :
  Editor.save (Sample.editor 3 Editor.Correction)
    (Some (Editor.save
             (Editor.Mk 1000 (Some (Sample.ramp 3)) "PPG" None
                (Some [true; false; false]) None (Some (Editor.time_axis 3))
                Editor.Correction true)
             None))
  = Editor.save
      (Editor.Mk 1000 (Some (Sample.ramp 3)) "PPG" None
         (Some [true; false; false]) None (Some (Editor.time_axis 3))
         Editor.Correction true)
      (Some (Editor.save (Sample.editor 3 Editor.Correction) None)) /\
  dom (Editor.save (Sample.editor 3 Editor.Correction)
         (Some (Editor.save
                  (Editor.Mk 1000 (Some (Sample.ramp 3)) "PPG" None
                     (Some [true; false; false]) None
                     (Some (Editor.time_axis 3)) Editor.Correction true)
                  None)))
  = {[lower "PPG"; lower "ECG"]} ∪ dom (default (∅ : Json.document) None).
Proof.
  apply (save_of_two_types_commutes
           (Editor.Mk 1000 (Some (Sample.ramp 3)) "PPG" None
              (Some [true; false; false]) None (Some (Editor.time_axis 3))
              Editor.Correction true)
           (Sample.editor 3 Editor.Correction) None).
  vm_compute. discriminate.
Defined.

(** X15. Reading a block whose ["corrected_peaks"] list is not empty and
    lies within [-n, n), [n] being the length of the signal (below 2^63, as
    that of every numpy array), gives a peaks vector of length [n] that is
    true exactly at the listed indices, a negative index counting from the
    end; the bad segments are those of the block. *)
Theorem load_signal_sets_listed_peaks
    (viewer : Viewer.t) (signal : list Q) (json_data : Json.document)
    (blk : Json.block) :
  json_data !! lower (Viewer.signal_type_ viewer) = Some blk ->
  Json.corrected_peaks blk <> [] ->
  Z.of_nat (length signal) <= 2 ^ 63 ->
  Forall (fun i => - Z.of_nat (length signal) <= i < Z.of_nat (length signal))
         (Json.corrected_peaks blk) ->
  exists p,
    Viewer.load_signal viewer signal (Some json_data)
    = Ok (Viewer.Mk (Viewer.signal_type_ viewer) (Some signal) (Some p)
            (Json.bad_segments blk)) /\
    length p = length signal /\
    forall j : nat,
      p !! j = Some true <->
      (j < length signal)%nat /\
      (Z.of_nat j ∈ Json.corrected_peaks blk \/
       Z.of_nat j - Z.of_nat (length signal) ∈ Json.corrected_peaks blk).
Proof.
  intros Hblk Hne Hbound Hall.
  assert (signal <> []) as Hs.
  { intros ->. destruct (Json.corrected_peaks blk) as [|i idx]; [done|].
    apply Forall_cons in Hall as [Hi _]. simpl in Hi. lia. }
  rewrite load_signal_on_samples, Hblk by done. simpl.
  unfold Np.setitem_array. rewrite index_array_int64; [|done|].
  2:{ eapply Forall_impl; [exact Hall|]. intros z Hz. simpl in Hz. lia. }
  simpl.
  pose proof (set_each_outcome (Json.corrected_peaks blk)
                (Np.zeros (length signal))) as Ho.
  unfold Np.zeros in *. rewrite length_replicate in Ho.
  destruct (Np.set_each (Json.corrected_peaks blk) true _) as [p|e].
  - destruct Ho as (_ & Hlen & Hlk). exists p. simpl.
    split; [done|]. split; [done|]. intros j. rewrite Hlk.
    split; [intros [H|H]; [|done]|by right].
    apply lookup_replicate in H as [[=] _].
  - destruct Ho as [_ Hex]. apply Exists_exists in Hex as (z & Hz & Hbad).
    eapply Forall_forall in Hall; [|exact Hz]. done.
Qed.

Lemma load_signal_sets_listed_peaks_witness :
  exists p,
    Viewer.load_signal Sample.fresh_viewer (Sample.ramp 6) (Some Sample.ecg_only)
    = Ok (Viewer.Mk (Viewer.signal_type_ Sample.fresh_viewer)
            (Some (Sample.ramp 6)) (Some p)
            (Json.bad_segments (Json.Block true [1; 4] (Some [10; 20])))) /\
    length p = length (Sample.ramp 6) /\
    forall j : nat,
      p !! j = Some true <->
      (j < length (Sample.ramp 6))%nat /\
      (Z.of_nat j ∈ Json.corrected_peaks (Json.Block true [1; 4] (Some [10; 20]))
       \/ Z.of_nat j - Z.of_nat (length (Sample.ramp 6))
          ∈ Json.corrected_peaks (Json.Block true [1; 4] (Some [10; 20]))).
Proof.
  apply (load_signal_sets_listed_peaks Sample.fresh_viewer (Sample.ramp 6)
           Sample.ecg_only (Json.Block true [1; 4] (Some [10; 20]))).
  - reflexivity.
  - discriminate.
  - vm_compute. discriminate.
  - repeat constructor; vm_compute; discriminate.
Defined.

(** X16. On a recording with samples, reading a block whose indices all fit
    int64 and one of which lies outside [-n, n), [n] being the length of
    the signal, raises [IndexError]: a file saved from a longer signal
    cannot be read back on a shorter one. *)
Theorem load_signal_index_out_of_range
    (viewer : Viewer.t) (signal : list Q) (json_data : Json.document)
    (blk : Json.block) (i : Z) :
  signal <> [] ->
  json_data !! lower (Viewer.signal_type_ viewer) = Some blk ->
  Forall (fun z => - 2 ^ 63 <= z < 2 ^ 63) (Json.corrected_peaks blk) ->
  i ∈ Json.corrected_peaks blk ->
  ~ (- Z.of_nat (length signal) <= i < Z.of_nat (length signal)) ->
  Viewer.load_signal viewer signal (Some json_data) = Raise IndexError.
Proof.
  intros Hs Hblk H64 Hi Hout.
  rewrite load_signal_on_samples, Hblk by done. simpl.
  unfold Np.setitem_array. rewrite index_array_int64; [|by intros E; rewrite E in Hi; apply elem_of_nil in Hi|done].
  simpl.
  pose proof (set_each_outcome (Json.corrected_peaks blk)
                (Np.zeros (length signal))) as Ho.
  unfold Np.zeros in *. rewrite length_replicate in Ho.
  destruct (Np.set_each (Json.corrected_peaks blk) true _) as [p|e].
  - destruct Ho as (Hall & _). eapply Forall_forall in Hall; [|exact Hi]. done.
  - by destruct Ho as [-> _].
Qed.

Lemma load_signal_index_out_of_range_witness :
  Viewer.load_signal Sample.fresh_viewer (Sample.ramp 3) (Some Sample.ecg_only)
  = Raise IndexError.
Proof.
  apply (load_signal_index_out_of_range Sample.fresh_viewer (Sample.ramp 3)
           Sample.ecg_only (Json.Block true [1; 4] (Some [10; 20])) 4).
  - discriminate.
  - reflexivity.
  - repeat constructor; vm_compute; discriminate.
  - apply list_elem_of_further, list_elem_of_here.
  - vm_compute. intros [_ H]. discriminate H.
Defined.

End MorePersistence.

(** ** Detection and construction *)

Section Construction.

Import Editor.

(** X17. When the editor already has a peaks vector, [find_peaks] calls no
    detector and does not look at the signal type: it returns normally and
    only copies the peaks into [uncorrected_peaks]. *)
Theorem find_peaks_keeps_given_peaks
    (ecg_peaks ppg_peaks : list Q -> nat -> result (list Q * list bool))
    (rsp_peaks : list Q -> nat -> result (list Q * (list bool * list bool)))
    (s : list Q) (self : Editor.t) (p : list bool) :
  peaks self = Some p ->
  find_peaks ecg_peaks ppg_peaks rsp_peaks s self
  = (Ok tt, set_uncorrected_peaks (Some p) self).
Proof.
  intros Hp. unfold find_peaks, mbind, M_bind, gets, modify, mret, M_ret.
  simpl. rewrite Hp. simpl. by rewrite Hp.
Qed.

(** X18. Without a peaks vector, [find_peaks] raises [ValueError] for every
    signal type other than "ECG", "PPG" and "RESP" as written, lower-case
    spellings included, and leaves the editor as it was. *)
Theorem find_peaks_rejects_other_types
    (ecg_peaks ppg_peaks : list Q -> nat -> result (list Q * list bool))
    (rsp_peaks : list Q -> nat -> result (list Q * (list bool * list bool)))
    (s : list Q) (self : Editor.t) :
  peaks self = None ->
  signal_type self <> "ECG" ->
  signal_type self <> "PPG" ->
  signal_type self <> "RESP" ->
  find_peaks ecg_peaks ppg_peaks rsp_peaks s self = (Raise ValueError, self).
Proof.
  intros Hp H1 H2 H3.
  unfold find_peaks, mbind, M_bind, gets, modify, lift, mret, M_ret.
  simpl. rewrite Hp.
  apply String.eqb_neq in H1, H2, H3. by rewrite H1, H2, H3.
Qed.


Lemma init_keeps_segments
    (ecg_peaks ppg_peaks : list Q -> nat -> result (list Q * list bool))
    (rsp_peaks : list Q -> nat -> result (list Q * (list bool * list bool)))
    (a : Editor.args) (self : Editor.t) :
  init ecg_peaks ppg_peaks rsp_peaks a = Ok self ->
  bad_segments self = bad_segments (init_attributes a).
Proof.
  unfold init. generalize (init_attributes a) as self0. intros self0.
  destruct (signal self0) as [s|]; [|by intros [= <-]].
  unfold mbind at 1. unfold M_bind at 1.
  pose proof (find_peaks_bad_segments ecg_peaks ppg_peaks rsp_peaks s self0)
    as Hb.
  destruct (find_peaks _ _ _ s _) as [[[]|e] self1]; [|done].
  simpl in Hb. rewrite <- Hb.
  unfold mbind, M_bind, attr, gets, lift, modify, mret, M_ret, unwrap. simpl.
  destruct (signal self1) as [s1|]; [|done]. simpl.
  destruct (bad_segments self1) as [[|x bs]|] eqn:Hbs; simpl;
    try (by intros [= <-]).
  change (match bs with
          | [] => Raise IndexError
          | e :: t => pair_up t ≫= λ ps : list (Z * Z), Ok ((x, e) :: ps)
          end) with (pair_up (x :: bs)).
  destruct (pair_up (x :: bs)); [|done]. by intros [= <-].
Qed.


End Construction.

Lemma find_peaks_keeps_given_peaks_witness :
  Editor.find_peaks Sample.no_peaks Sample.no_peaks Sample.no_breaths
    (Sample.ramp 6)
    (Editor.Mk 1000 (Some (Sample.ramp 6)) "eeg" (Some []) (Some [true])
       None None Editor.Correction true)
  = (Ok tt,
     Editor.set_uncorrected_peaks (Some [true])
       (Editor.Mk 1000 (Some (Sample.ramp 6)) "eeg" (Some []) (Some [true])
          None None Editor.Correction true)).
Proof.
  apply (find_peaks_keeps_given_peaks Sample.no_peaks Sample.no_peaks
           Sample.no_breaths (Sample.ramp 6)
           (Editor.Mk 1000 (Some (Sample.ramp 6)) "eeg" (Some []) (Some [true])
              None None Editor.Correction true)
           [true]).
  reflexivity.
Defined.

Lemma find_peaks_rejects_other_types_witness :
  Editor.find_peaks Sample.no_peaks Sample.no_peaks Sample.no_breaths
    (Sample.ramp 6)
    (Editor.Mk 1000 (Some (Sample.ramp 6)) "ecg" (Some []) None None None
       Editor.Correction true)
  = (Raise ValueError,
     Editor.Mk 1000 (Some (Sample.ramp 6)) "ecg" (Some []) None None None
       Editor.Correction true).
Proof.
  apply (find_peaks_rejects_other_types Sample.no_peaks Sample.no_peaks
           Sample.no_breaths (Sample.ramp 6)
           (Editor.Mk 1000 (Some (Sample.ramp 6)) "ecg" (Some []) None None None
              Editor.Correction true));
    [reflexivity|discriminate..].
Defined.


(** ** From the recording to the editor *)

Section ViewerFlow.

(** X20. [load_file] returns the viewer exactly when one recording and one
    sidecar match and the sidecar holds "SamplingFrequency" and "Columns";
    the two files, the frequency and the column names are then those
    found. It returns [None] exactly when the recordings, or else the
    sidecars, are not exactly one, and then every attribute it assigns is
    [None]. Otherwise it raises, and what it raises is [KeyError]. *)
Theorem load_file_outcomes
    (self : Files.t) (physio_files json_files : list string)
    (read_json : string -> Files.sidecar) :
  let out := Files.load_file self physio_files json_files read_json in
  (out.1 = Ok true <->
   exists physio json fs cols,
     physio_files = [physio] /\ json_files = [json] /\
     Files.SamplingFrequency (read_json json) = Some fs /\
     Files.Columns (read_json json) = Some cols /\
     Files.physio_file out.2 = Some physio /\
     Files.json_file out.2 = Some json /\
     Files.sfreq out.2 = Some fs /\
     Files.input_columns_names out.2 = Some cols) /\
  (out.1 = Ok false <->
   length physio_files <> 1%nat \/ length json_files <> 1%nat) /\
  (out.1 = Ok false -> out.2 = Files.Mk None None None None None None) /\
  (forall e, out.1 = Raise e -> e = KeyError).
Proof.
  unfold Files.load_file.
  destruct physio_files as [|physio [|physio' pf]]; simpl.
  - split; [|split; [|split]]; try done.
    + split; [done|]. by intros (? & ? & ? & ? & [=] & _).
    + split; [by left|done].
  - destruct json_files as [|json [|json' jf]]; simpl.
    + split; [|split; [|split]]; try done.
      * split; [done|]. by intros (? & ? & ? & ? & _ & [=] & _).
      * split; [by right|done].
    + destruct (Files.SamplingFrequency (read_json json)) as [fs|] eqn:Hfs;
        simpl.
      2:{ split; [|split; [|split]]; try done.
          - split; [done|]. intros (? & ? & ? & ? & _ & [= <-] & H & _).
            congruence.
          - split; [done|]. by intros [|].
          - by intros e [= <-]. }
      destruct (Files.Columns (read_json json)) as [cols|] eqn:Hc; simpl.
      2:{ split; [|split; [|split]]; try done.
          - split; [done|]. intros (? & ? & ? & ? & _ & [= <-] & _ & H & _).
            congruence.
          - split; [done|]. by intros [|].
          - by intros e [= <-]. }
      destruct (Files.StartTime (read_json json)) as [b|]; simpl;
        [destruct (Files.EndTime (read_json json)) as [e|]; simpl|].
      all: split; [|split; [|split]]; try done.
      all: try (split; [done|]; by intros [|]).
      all: split; [intros _|done]; by exists physio, json, fs, cols.
    + split; [|split; [|split]]; try done.
      * split; [done|]. by intros (? & ? & ? & ? & _ & [=] & _).
      * split; [by right|done].
  - split; [|split; [|split]]; try done.
    + split; [done|]. by intros (? & ? & ? & ? & [=] & _).
    + split; [by left|done].
Qed.

(** X21. With one recording and one sidecar that holds the frequency and
    the columns, [load_file] takes the start time from "StartTime" and the
    end time from "EndTime", but reads the end time only when the start
    time is there: without "StartTime" both stay [None]. *)
Theorem load_file_times
    (self : Files.t) (physio json : string)
    (read_json : string -> Files.sidecar) :
  is_Some (Files.SamplingFrequency (read_json json)) ->
  is_Some (Files.Columns (read_json json)) ->
  let out := Files.load_file self [physio] [json] read_json in
  Files.recording_start_time out.2 = Files.StartTime (read_json json) /\
  Files.recording_end_time out.2
  = match Files.StartTime (read_json json) with
    | Some _ => Files.EndTime (read_json json)
    | None => None
    end.
Proof.
  intros [fs Hfs] [cols Hc]. unfold Files.load_file. simpl.
  rewrite Hfs, Hc. simpl.
  destruct (Files.StartTime (read_json json)); simpl; [|done].
  by destruct (Files.EndTime (read_json json)).
Qed.

Lemma load_file_times_witness :
  Files.recording_start_time
    (Files.load_file Fixture.blank ["a.tsv.gz"] ["a.json"]
       (fun _ => Files.Sidecar (Some (1000 # 1)) (Some ["ecg"]) None
                   (Some "09:05"))).2
  = Files.StartTime
      (Files.Sidecar (Some (1000 # 1)) (Some ["ecg"]) None (Some "09:05")) /\
  Files.recording_end_time
    (Files.load_file Fixture.blank ["a.tsv.gz"] ["a.json"]
       (fun _ => Files.Sidecar (Some (1000 # 1)) (Some ["ecg"]) None
                   (Some "09:05"))).2
  = match Files.StartTime
            (Files.Sidecar (Some (1000 # 1)) (Some ["ecg"]) None (Some "09:05"))
    with
    | Some _ =>
        Files.EndTime
          (Files.Sidecar (Some (1000 # 1)) (Some ["ecg"]) None (Some "09:05"))
    | None => None
    end.
Proof.
  apply (load_file_times Fixture.blank "a.tsv.gz" "a.json"
           (fun _ => Files.Sidecar (Some (1000 # 1)) (Some ["ecg"]) None
                       (Some "09:05")));
    by eexists.
Defined.

(** X22. When the recordings or the sidecars found are not exactly one,
    [plot_signal] raises [AttributeError]: [load_file] has returned [None]
    and [load_signal] is called on it. *)
Theorem plot_signal_needs_unique_files
    (ecg_peaks ppg_peaks : list Q -> nat -> result (list Q * list bool))
    (rsp_peaks : list Q -> nat -> result (list Q * (list bool * list bool)))
    (files : Files.t) (viewer : Viewer.t)
    (physio_files json_files : list string)
    (read_json : string -> Files.sidecar)
    (signal : list Q) (file : option Json.document) :
  length physio_files <> 1%nat \/ length json_files <> 1%nat ->
  plot_signal ecg_peaks ppg_peaks rsp_peaks files viewer physio_files
    json_files read_json signal file
  = Raise AttributeError.
Proof.
  intros H. unfold plot_signal, Files.load_file.
  destruct physio_files as [|physio [|physio' pf]]; simpl; try done.
  destruct json_files as [|json [|json' jf]]; simpl; try done.
  by destruct H.
Qed.

Lemma plot_signal_needs_unique_files_witness :
  plot_signal Sample.no_peaks Sample.no_peaks Sample.no_breaths Fixture.blank
    Sample.fresh_viewer [] ["a.json"] (fun _ => Fixture.sidecar)
    (Sample.ramp 6) None
  = Raise AttributeError.
Proof.
  apply (plot_signal_needs_unique_files Sample.no_peaks Sample.no_peaks
           Sample.no_breaths Fixture.blank Sample.fresh_viewer [] ["a.json"]
           (fun _ => Fixture.sidecar) (Sample.ramp 6) None).
  left. discriminate.
Defined.

Lemma load_file_self_has_recording
    (self fs : Files.t) (physio_files json_files : list string)
    (read_json : string -> Files.sidecar) :
  Files.load_file self physio_files json_files read_json = (Ok true, fs) ->
  is_Some (Files.physio_file fs).
Proof.
  unfold Files.load_file.
  destruct physio_files as [|physio [|physio' pf]]; simpl; try done.
  destruct json_files as [|json [|json' jf]]; simpl; try done.
  destruct (Files.SamplingFrequency _); simpl; [|done].
  destruct (Files.Columns _); simpl; [|done].
  destruct (Files.StartTime _); simpl;
    [destruct (Files.EndTime _); simpl|]; by intros [= <-].
Qed.

(** X23. An editor that [plot_signal] starts on a recording without a
    corrected JSON file has no list of bad segments, and once switched to
    rejection mode its [on_remove] raises [AttributeError] on every
    selection and marks nothing. *)
Theorem viewer_without_file_cannot_mark_bad
    (ecg_peaks ppg_peaks : list Q -> nat -> result (list Q * list bool))
    (rsp_peaks : list Q -> nat -> result (list Q * (list bool * list bool)))
    (files : Files.t) (viewer : Viewer.t)
    (physio_files json_files : list string)
    (read_json : string -> Files.sidecar) (signal : list Q)
    (files' : Files.t) (viewer' : Viewer.t) (editor : Editor.t) :
  plot_signal ecg_peaks ppg_peaks rsp_peaks files viewer physio_files
    json_files read_json signal None
  = Ok (files', viewer', editor) ->
  Editor.bad_segments editor = None /\
  forall plot_raw xmin xmax,
    Editor.on_remove plot_raw xmin xmax
      (Editor.set_edition Editor.Rejection editor)
    = (Raise AttributeError, Editor.set_edition Editor.Rejection editor).
Proof.
  unfold plot_signal.
  destruct (Files.load_file _ _ _ _) as [[[|]|e] fs] eqn:Hload; [|done..].
  destruct (load_file_self_has_recording _ _ _ _ _ Hload) as [physio ->].
  destruct signal as [|y t]; [done|].
  rewrite load_signal_on_samples by done.
  simpl.
  destruct (Editor.init _ _ _ _) as [ed|e] eqn:Hinit; [|done].
  intros [= <- <- <-].
  assert (Editor.bad_segments ed = None) as Hb.
  { rewrite (init_keeps_segments _ _ _ _ _ Hinit).
    by rewrite init_attributes_bad_segments. }
  split; [done|]. intros plot_raw xmin xmax. run.
  destruct (Editor.x_vec ed); simpl; [|done]. by rewrite Hb.
Qed.

Lemma viewer_without_file_cannot_mark_bad_witness :
  Editor.bad_segments
    (Editor.Mk 1000 (Some (Sample.ramp 6)) "ECG" None
       (Some (replicate 6 false)) (Some (replicate 6 false))
       (Some (Editor.time_axis 6)) Editor.Correction true)
  = None /\
  forall plot_raw xmin xmax,
    Editor.on_remove plot_raw xmin xmax
      (Editor.set_edition Editor.Rejection
         (Editor.Mk 1000 (Some (Sample.ramp 6)) "ECG" None
            (Some (replicate 6 false)) (Some (replicate 6 false))
            (Some (Editor.time_axis 6)) Editor.Correction true))
    = (Raise AttributeError,
       Editor.set_edition Editor.Rejection
         (Editor.Mk 1000 (Some (Sample.ramp 6)) "ECG" None
            (Some (replicate 6 false)) (Some (replicate 6 false))
            (Some (Editor.time_axis 6)) Editor.Correction true)).
Proof.
  apply (viewer_without_file_cannot_mark_bad Sample.no_peaks Sample.no_peaks
           Sample.no_breaths Fixture.blank Sample.fresh_viewer
           ["a.tsv.gz"] ["a.json"] (fun _ => Fixture.sidecar) (Sample.ramp 6)
           (Files.Mk (Some "09:00") (Some "09:05") (Some (1000 # 1))
              (Some ["time"; "ecg"]) (Some "a.json") (Some "a.tsv.gz"))
           (Viewer.Mk "ECG" (Some (Sample.ramp 6)) None None)).
  vm_compute. reflexivity.
Defined.



End ViewerFlow.
